(** * DrupalJsonApiEntity (src/libs/plugin-entity.js)

    A shallow embedding of the entity class with its default configuration,
    and proofs about its field map, value resolution, relationship
    extraction, traversal and default transform.

    JavaScript values are modelled as JSON trees.  An object is an
    association list in property order (the order [Object.keys] reports); a
    payload comes from a JSON document, so no two places of a tree share one
    object and an in-place update is the same as a rebuilt value.  Strings
    are ASCII.  Numbers are integers: only their truthiness and their
    rendering as a property key are ever inspected by the class.  A thrown
    exception is an [Err]; the collaborator [this.api] is a record of
    functions. *)

From Stdlib Require Import List String Ascii Bool ZArith Lia Permutation DecimalString.
Import ListNotations.
Local Open Scope string_scope.

(** ** Values *)

#[local] Unset Elimination Schemes.
Inductive jsval : Type :=
| VUndef
| VNull
| VBool (b : bool)
| VNum (n : Z)
| VStr (s : string)
| VArr (items : list jsval)
| VObj (props : list (string * jsval)).
#[local] Set Elimination Schemes.

(** Induction over a value and everything nested in it. *)
Section ValueInd.
Variable P : jsval -> Prop.
Hypothesis Hundef : P VUndef.
Hypothesis Hnull : P VNull.
Hypothesis Hbool : forall b, P (VBool b).
Hypothesis Hnum : forall n, P (VNum n).
Hypothesis Hstr : forall s, P (VStr s).
Hypothesis Harr : forall l, Forall P l -> P (VArr l).
Hypothesis Hobj : forall kvs, Forall (fun kv => P (snd kv)) kvs -> P (VObj kvs).

Fixpoint jsval_nested_ind (v : jsval) : P v :=
  match v with
  | VUndef => Hundef
  | VNull => Hnull
  | VBool b => Hbool b
  | VNum n => Hnum n
  | VStr s => Hstr s
  | VArr l =>
      Harr l ((fix go (l : list jsval) : Forall P l :=
               match l with
               | [] => Forall_nil P
               | x :: t => Forall_cons x (jsval_nested_ind x) (go t)
               end) l)
  | VObj kvs =>
      Hobj kvs ((fix go (kvs : list (string * jsval))
              : Forall (fun kv => P (snd kv)) kvs :=
               match kvs with
               | [] => Forall_nil _
               | kv :: t =>
                   Forall_cons kv (jsval_nested_ind (snd kv)) (go t)
               end) kvs)
  end.
End ValueInd.

(** ** Errors

    [TypeError] is what the engine raises on a property read of
    [undefined]/[null] or a call of a non-function; [Error msg] is the
    [new Error(msg)] the class throws itself; [RangeError] is call-stack
    exhaustion of a recursion that goes through the collaborator. *)

Inductive error : Type :=
| TypeError
| Error (msg : string)
| RangeError.

Inductive result (A : Type) : Type :=
| Ok (a : A)
| Err (e : error).
Arguments Ok {A} a.
Arguments Err {A} e.

Definition bind {A B} (r : result A) (k : A -> result B) : result B :=
  match r with
  | Ok a => k a
  | Err e => Err e
  end.

Notation "x <- r ;; k" := (bind r (fun x => k))
  (at level 61, r at next level, right associativity).

(** ** Language primitives *)

(** ToBoolean. *)
Definition truthy (v : jsval) : bool :=
  match v with
  | VUndef | VNull => false
  | VBool b => b
  | VNum n => negb (Z.eqb n 0)
  | VStr s => negb (String.eqb s "")
  | VArr _ | VObj _ => true
  end.

(** [typeof v === 'object' && !!v] *)
Definition is_object (v : jsval) : bool :=
  match v with
  | VArr _ | VObj _ => true
  | _ => false
  end.

Definition isArray (v : jsval) : bool :=
  match v with
  | VArr _ => true
  | _ => false
  end.

(** Decimal rendering of an array index, as a property key. *)
Definition index_key (i : nat) : string :=
  NilZero.string_of_uint (Nat.to_uint i).

Fixpoint lookup {A} (k : string) (kvs : list (string * A)) : option A :=
  match kvs with
  | [] => None
  | (k', v) :: t => if String.eqb k k' then Some v else lookup k t
  end.

Fixpoint arr_get (l : list jsval) (i : nat) (k : string) : jsval :=
  match l with
  | [] => VUndef
  | x :: t => if String.eqb k (index_key i) then x else arr_get t (S i) k
  end.

Fixpoint chars (s : string) : list jsval :=
  match s with
  | EmptyString => []
  | String c t => VStr (String c EmptyString) :: chars t
  end.

(** Property read [o[k]] on a value that is neither [undefined] nor [null].
    Own properties only: every key the class reads by a fixed name ([data],
    [type], [id], [links], [self], [attributes], ...) or by a name taken from
    [Object.keys] is absent from the built-in prototypes. *)
Definition prop (o : jsval) (k : string) : jsval :=
  match o with
  | VObj kvs =>
      match lookup k kvs with
      | Some v => v
      | None => VUndef
      end
  | VArr l =>
      if String.eqb k "length" then VNum (Z.of_nat (List.length l))
      else arr_get l 0 k
  | VStr s =>
      if String.eqb k "length" then VNum (Z.of_nat (String.length s))
      else arr_get (chars s) 0 k
  | _ => VUndef
  end.

(** Property read that throws on [undefined] and [null]. *)
Definition get (o : jsval) (k : string) : result jsval :=
  match o with
  | VUndef | VNull => Err TypeError
  | _ => Ok (prop o k)
  end.

(** [a[i]] for an array [a]. *)
Definition at_index (l : list jsval) (i : nat) : jsval :=
  nth i l VUndef.

Fixpoint indices (i n : nat) : list string :=
  match n with
  | O => []
  | S n' => index_key i :: indices (S i) n'
  end.

(** [Object.keys(o)] *)
Definition keys (o : jsval) : result (list string) :=
  match o with
  | VUndef | VNull => Err TypeError
  | VObj kvs => Ok (map fst kvs)
  | VArr l => Ok (indices 0 (List.length l))
  | VStr s => Ok (indices 0 (String.length s))
  | VBool _ | VNum _ => Ok []
  end.

(** [delete o[k]] on an object. *)
Fixpoint remove_key {A} (k : string) (kvs : list (string * A)) : list (string * A) :=
  match kvs with
  | [] => []
  | (k', v) :: t =>
      if String.eqb k k' then remove_key k t else (k', v) :: remove_key k t
  end.

(** [o[k] = v] on an object: an existing property keeps its place, a new one
    goes last. *)
Fixpoint set_key {A} (k : string) (v : A) (kvs : list (string * A)) : list (string * A) :=
  match kvs with
  | [] => [(k, v)]
  | (k', v') :: t =>
      if String.eqb k k' then (k, v) :: t else (k', v') :: set_key k v t
  end.

(** [delete o.k]: a no-op on anything but an object that has the property;
    a TypeError on [undefined] and [null]. *)
Definition delete (o : jsval) (k : string) : result jsval :=
  match o with
  | VUndef | VNull => Err TypeError
  | VObj kvs => Ok (VObj (remove_key k kvs))
  | _ => Ok o
  end.

(** [Object.assign(target, { [k]: v })].  A primitive target is left as it
    is (the property lands on a temporary wrapper). *)
Definition assign1 (target : jsval) (k : string) (v : jsval) : jsval :=
  match target with
  | VObj kvs => VObj (set_key k v kvs)
  | _ => target
  end.

(** *** Strings *)

(** [s.split('--')], with [cur] the piece being read. *)
Fixpoint split_from (cur s : string) : list string :=
  match s with
  | EmptyString => [cur]
  | String "-" (String "-" rest) => cur :: split_from "" rest
  | String c rest => split_from (cur ++ String c EmptyString) rest
  end.

Definition split (s : string) : list string := split_from "" s.

(** [s.indexOf('--')], [-1] when absent. *)
Fixpoint indexOf_from (i : Z) (s : string) : Z :=
  match s with
  | EmptyString => (-1)%Z
  | String "-" (String "-" _) => i
  | String _ rest => indexOf_from (i + 1)%Z rest
  end.

Definition indexOf (s : string) : Z := indexOf_from 0 s.

(** [a.indexOf('--')] on an array: strict equality with the string. *)
Fixpoint arr_indexOf_from (i : Z) (l : list jsval) : Z :=
  match l with
  | [] => (-1)%Z
  | VStr s :: t => if String.eqb s "--" then i else arr_indexOf_from (i + 1)%Z t
  | _ :: t => arr_indexOf_from (i + 1)%Z t
  end.

(** Number of separators [split] cuts at. *)
Fixpoint separators (s : string) : nat :=
  match s with
  | EmptyString => 0
  | String "-" (String "-" rest) => S (separators rest)
  | String _ rest => separators rest
  end.

(** [s] with the prefix [p] removed, when [s] starts with [p]. *)
Fixpoint strip_prefix (p s : string) : option string :=
  match p, s with
  | EmptyString, _ => Some s
  | String a p', String b s' =>
      if Ascii.eqb a b then strip_prefix p' s' else None
  | String _ _, EmptyString => None
  end.

Definition lower (c : ascii) : bool :=
  let n := nat_of_ascii c in Nat.leb 97 n && Nat.leb n 122.

(** [/^<p>[a-z]?id$/] *)
Definition opt_letter_id (p s : string) : bool :=
  match strip_prefix p s with
  | Some rest =>
      String.eqb rest "id"
      || match rest with
         | String c rest' => lower c && String.eqb rest' "id"
         | EmptyString => false
         end
  | None => false
  end.

(** [/^field_/] *)
Definition re_field (k : string) : bool :=
  match strip_prefix "field_" k with
  | Some _ => true
  | None => false
  end.

(** [/^paragraphs$/] *)
Definition re_paragraphs (k : string) : bool := String.eqb k "paragraphs".

(** [/^drupal_internal_[a-z]?id$/], the test of [cleanFields]. *)
Definition re_clean_id (k : string) : bool := opt_letter_id "drupal_internal_" k.

(** [/^drupal_internal__[a-z]?id$/], the test of the [id] getter. *)
Definition re_is_id (k : string) : bool := opt_letter_id "drupal_internal__" k.

(** [/^(label|title|status|path|paragraphs)$/] *)
Definition re_named (k : string) : bool :=
  String.eqb k "label" || String.eqb k "title" || String.eqb k "status"
  || String.eqb k "path" || String.eqb k "paragraphs".

(** ** The default transform *)

(** [o.data = f(o.data)] on the properties of an object that has [data]. *)
Fixpoint on_data (f : jsval -> jsval) (kvs : list (string * jsval)) : list (string * jsval) :=
  match kvs with
  | [] => []
  | (k, v) :: t =>
      if String.eqb "data" k then (k, f v) :: t else (k, v) :: on_data f t
  end.

(** [cleanField(field)].  For an object the source first drops [links] (when
    [field.links.self] is truthy) and then replaces an array under [data] by
    its cleaned copy; here [data] is rewritten first, which keeps the
    recursion structural, and [links] is dropped afterwards.
    [cleanField_object] below restates it in the order of the source. *)
Fixpoint cleanField (field : jsval) : jsval :=
  match field with
  | VObj kvs =>
      let cleaned :=
        on_data (fun d => match d with
                          | VArr l => VArr (map cleanField l)
                          | _ => d
                          end) kvs in
      if truthy (prop field "links") && truthy (prop (prop field "links") "self")
      then VObj (remove_key "links" cleaned)
      else VObj cleaned
  | VArr l => VArr (map cleanField l)
  | _ => field
  end.

(** The three tests of [cleanFields]. *)
Definition fieldTests (k : string) : bool :=
  re_field k || re_clean_id k || re_named k.

(** [cleanFields(fields)] *)
Definition cleanFields (fields : jsval) : result jsval :=
  ks <- keys fields ;;
  Ok (VObj (fold_left
              (fun group field => set_key field (cleanField (prop fields field)) group)
              (filter fieldTests ks) [])).

(** One round of the [forEach] in [transform]:
    [Object.assign(res.data, { [fieldSet]: this.cleanFields(res.data[fieldSet]) })].
    [res.data] is updated in place, so [res] sees the change. *)
Definition cleanFieldSet (res : jsval) (fieldSet : string) : result jsval :=
  fields <- get (prop res "data") fieldSet ;;
  cleaned <- cleanFields fields ;;
  Ok (assign1 res "data" (assign1 (prop res "data") fieldSet cleaned)).

(** [transform(res)] *)
Definition transform (res : jsval) : result jsval :=
  res <- delete res "jsonapi" ;;
  res <- delete res "links" ;;
  res <- (if truthy (prop res "data") && truthy (prop (prop res "data") "links")
          then d <- delete (prop res "data") "links" ;; Ok (assign1 res "data" d)
          else Ok res) ;;
  res <- cleanFieldSet res "attributes" ;;
  cleanFieldSet res "relationships".

(** ** Configuration defaults *)

(** [relationshipTests]: [/^field_/] and [/^paragraphs$/]. *)
Definition relationshipTests (k : string) : bool :=
  re_field k || re_paragraphs k.

(** [isRelationship]:
    [typeof i === 'object' && i && !Array.isArray(i) && i.type && i.id
     && i.type.indexOf('--') > 1].
    A truthy [type] that is neither a string nor an array has no [indexOf],
    and the call throws. *)
Definition isRelationship (i : jsval) : result bool :=
  match i with
  | VObj _ =>
      if truthy (prop i "type") && truthy (prop i "id")
      then match prop i "type" with
           | VStr s => Ok (Z.ltb 1 (indexOf s))
           | VArr l => Ok (Z.ltb 1 (arr_indexOf_from 0 l))
           | _ => Err TypeError
           end
      else Ok false
  | _ => Ok false
  end.

(** [t.split('--')] on whatever [t] is: only strings have [split]. *)
Definition split_of (t : jsval) : result (list jsval) :=
  match t with
  | VStr s => Ok (map VStr (split s))
  | _ => Err TypeError
  end.

(** [a === 'literal'] *)
Definition is_str (v : jsval) (s : string) : bool :=
  match v with
  | VStr s' => String.eqb s' s
  | _ => false
  end.

(** ToString, as applied to a computed property key or a template hole
    (integers are printed in full, as JavaScript does below 10^21). *)
Fixpoint to_string (v : jsval) : string :=
  match v with
  | VUndef => "undefined"
  | VNull => "null"
  | VBool true => "true"
  | VBool false => "false"
  | VNum n => NilZero.string_of_int (Z.to_int n)
  | VStr s => s
  | VArr l =>
      String.concat ","
        (map (fun x => match x with
                       | VUndef | VNull => ""
                       | _ => to_string x
                       end) l)
  | VObj _ => "[object Object]"
  end.

(** ** Lookup keys and the collaborator *)

Module Lookup.
Record t : Type := make { entity : jsval; bundle : jsval; uuid : jsval }.
End Lookup.

(** [dataToLookup(data)] *)
Definition dataToLookup (data : jsval) : result Lookup.t :=
  t <- get data "type" ;;
  parts <- split_of t ;;
  Ok (Lookup.make (at_index parts 0) (at_index parts 1) (prop data "id")).

(** The entity instance: the fields the constructor sets. *)
Record Entity : Type := {
  res : jsval;
  data : jsval;
  attrs : jsval;
  relationshipGroups : list string;
  _fieldMap : list (string * list string);
  _id : jsval
}.

(** What a method can hand back: plain data, an entity instance, or the
    outcome of a built-in of [Object.prototype] reached through the
    [valueProcessors] table. *)
Inductive rv : Type :=
| Plain (v : jsval)
| Instance (e : Entity)
| Builtin (name : string) (arg : jsval).

(** State of a promise when it is observed. *)
Inductive promise : Type :=
| Pending
| Fulfilled
| Rejected.

(** The collaborator [this.api], shared by every entity of a traversal. *)
Record Api : Type := {
  getEntity : Lookup.t -> Z -> promise;
  getRelationship : jsval -> result rv;
  hasBeenTraversed : Lookup.t -> bool;
  endpoint : Lookup.t -> string
}.

(** ** Construction *)

(** [getData(input)] *)
Definition getData (input : jsval) : result jsval :=
  d <- get input "data" ;;
  if truthy d && truthy (prop d "type") && truthy (prop d "id") then Ok d
  else if truthy (prop input "type") && truthy (prop input "id") then Ok input
  else if truthy d && isArray d then Ok d
  else Ok (VObj []).

(** [constructor(api, apiData)] with no options: [cleanEntity] is
    [transform]. *)
Definition construct (apiData : jsval) : result Entity :=
  res <- transform apiData ;;
  data <- getData res ;;
  Ok {| res := res;
        data := data;
        attrs := if truthy res && truthy (prop res "data")
                    && truthy (prop (prop res "data") "attributes")
                 then prop (prop res "data") "attributes"
                 else VObj [];
        relationshipGroups := ["relationships"];
        _fieldMap := [];
        _id := VNull |}.

(** ** Methods that read or memoize on [this]

    A method is a function of the instance that returns its outcome and the
    instance as the call leaves it. *)

Definition M (A : Type) : Type := Entity -> result A * Entity.

Definition ret {A} (a : A) : M A := fun e => (Ok a, e).
Definition throw {A} (er : error) : M A := fun e => (Err er, e).
Definition lift {A} (r : result A) : M A := fun e => (r, e).
Definition bindM {A B} (m : M A) (k : A -> M B) : M B :=
  fun e => match m e with
           | (Ok a, e') => k a e'
           | (Err er, e') => (Err er, e')
           end.
Definition this : M Entity := fun e => (Ok e, e).

Notation "x <~ m ;; k" := (bindM m (fun x => k))
  (at level 61, m at next level, right associativity).

(** [get id()] *)
Definition id : M jsval :=
  e <~ this ;;
  if negb (truthy (_id e))
  then ks <~ lift (keys (attrs e)) ;;
       match find re_is_id ks with
       | Some key =>
           fun e => let e' := {| res := res e; data := data e; attrs := attrs e;
                                 relationshipGroups := relationshipGroups e;
                                 _fieldMap := _fieldMap e;
                                 _id := prop (attrs e) key |} in
                    (Ok (_id e'), e')
       | None => ret (_id e)
       end
  else ret (_id e).

(** [get entity()] *)
Definition entity (e : Entity) : result jsval :=
  d <- get (res e) "data" ;;
  t <- get d "type" ;;
  parts <- split_of t ;;
  Ok (at_index parts 0).

(** [get bundle()] *)
Definition bundle (e : Entity) : result jsval :=
  d <- get (res e) "data" ;;
  t <- get d "type" ;;
  parts <- split_of t ;;
  Ok (at_index parts 1).

(** [isCollection()] *)
Definition isCollection (e : Entity) : bool := isArray (data e).

(** [relationshipFieldNames(group)] *)
Definition relationshipFieldNames (e : Entity) (group : string) : result (list string) :=
  g <- get (data e) group ;;
  ks <- keys (if truthy g then g else VArr []) ;;
  Ok (filter relationshipTests ks).

(** [makePath] inside the [fieldMap] getter. *)
Definition makePath (ks : list string) (path : list string) : list (string * list string) :=
  map (fun k => (k, (path ++ [k])%list)) ks.

(** [new Map(pairs)]: pairs are set one after the other. *)
Definition new_Map (pairs : list (string * list string)) : list (string * list string) :=
  fold_left (fun m kp => set_key (fst kp) (snd kp) m) pairs [].

(** The pairs the [fieldMap] getter hands to [new Map]. *)
Definition fieldPairs (e : Entity) : result (list (string * list string)) :=
  ks <- keys (attrs e) ;;
  fold_left
    (fun fields group =>
       fs <- fields ;;
       names <- relationshipFieldNames e group ;;
       Ok (fs ++ makePath names ["data"; group])%list)
    (relationshipGroups e)
    (Ok (makePath ks ["data"; "attributes"])).

(** [get fieldMap()] *)
Definition fieldMap : M (list (string * list string)) :=
  e <~ this ;;
  if negb (isCollection e) && Nat.eqb (List.length (_fieldMap e)) 0
  then pairs <~ lift (fieldPairs e) ;;
       fun e => let e' := {| res := res e; data := data e; attrs := attrs e;
                             relationshipGroups := relationshipGroups e;
                             _fieldMap := new_Map pairs;
                             _id := _id e |} in
                (Ok (_fieldMap e'), e')
  else ret (_fieldMap e).

(** [getPath(path)] *)
Definition getPath (e : Entity) (path : list string) : result jsval :=
  fold_left (fun acc key => v <- acc ;; get v key) path (Ok (res e)).

(** The message of the error [field] throws. *)
Definition notPartOf (name kind : string) : string :=
  "The field (" ++ name ++ ") is not part of the entity (" ++ kind ++ ")".

(** [field(name)] *)
Definition field (name : string) : M jsval :=
  m <~ fieldMap ;;
  match lookup name m with
  | None =>
      e <~ this ;;
      kind <~ lift (entity e) ;;
      throw (Error (notPartOf name (to_string kind)))
  | Some _ =>
      m' <~ fieldMap ;;
      e <~ this ;;
      match lookup name m' with
      | Some path => lift (getPath e path)
      | None => throw TypeError
      end
  end.

(** ** Value resolution *)

(** Function-valued properties an empty object literal inherits from
    [Object.prototype]; [valueProcessors] is such an object by default. *)
Definition prototypeFunctions : list string :=
  ["constructor"; "hasOwnProperty"; "isPrototypeOf"; "propertyIsEnumerable";
   "toLocaleString"; "toString"; "valueOf";
   "__defineGetter__"; "__defineSetter__"; "__lookupGetter__"; "__lookupSetter__"].

(** [this.config.valueProcessors[field](field)] when
    [typeof this.config.valueProcessors[field] === 'function']: [None] when
    the table has no function under the key [field] coerces to.  The two
    [__define...__] built-ins reject a missing second argument. *)
Definition valueProcessor (field : jsval) : option (result rv) :=
  let key := to_string field in
  if existsb (String.eqb key) prototypeFunctions
  then if String.eqb key "__defineGetter__" || String.eqb key "__defineSetter__"
       then Some (Err TypeError)
       else Some (Ok (Builtin key field))
  else None.

(** The first half of [getFieldValue]: unwrap [data], then index. *)
Definition unwrap (structure : jsval) (index : nat) : jsval :=
  let value :=
    if is_object structure
    then match prop structure "data" with
         | VArr l => at_index l index
         | d => if truthy d then d else structure
         end
    else structure in
  match value with
  | VArr l => if truthy (at_index l index) then at_index l index else value
  | _ => value
  end.

Section Resolution.
Variable api : Api.

(** [r.value(name)] on whatever [r] is; only an entity instance has the
    method.  [value_of] is the class's own [value]. *)
Definition call_value (value_of : string -> M rv) (r : rv) (name : string) : result rv :=
  match r with
  | Instance e => fst (value_of name e)
  | _ => Err TypeError
  end.

(** [getFieldValue(structure, index)] *)
Definition getFieldValue (value_of : string -> M rv)
    (structure : jsval) (index : nat) : result rv :=
  let value := unwrap structure index in
  rel <- isRelationship value ;;
  if rel : bool
  then t <- get value "type" ;;
       parts <- split_of t ;;
       if is_str (at_index parts 0) "paragraph"
          && is_str (at_index parts 1) "from_library"
       then r <- getRelationship api value ;;
            r <- call_value value_of r "field_reusable_paragraph" ;;
            call_value value_of r "paragraphs"
       else getRelationship api value
  else Ok (Plain value).

(** [value(name)].  [depth] bounds the nesting of [value] calls that go
    through the collaborator, as the call stack does. *)
Fixpoint value (depth : nat) (name : string) : M rv :=
  match depth with
  | O => throw RangeError
  | S depth' =>
      f <~ field name ;;
      match valueProcessor f with
      | Some r => lift r
      | None => lift (getFieldValue (value depth') f 0)
      end
  end.

(** ** Relationship extraction *)

(** [Object.assign(set, found)]: each own property of [found] is assigned
    on [set].  Assigning [__proto__] reaches the prototype setter and adds
    no own property. *)
Definition assign {A} (set found : list (string * A)) : list (string * A) :=
  fold_left
    (fun acc kv => if String.eqb (fst kv) "__proto__" then acc
                   else set_key (fst kv) (snd kv) acc)
    found set.

(** [parseRelationshipLookups(items)] *)
Fixpoint parseRelationshipLookups (items : jsval) : result (list (string * Lookup.t)) :=
  rel <- isRelationship items ;;
  if rel : bool
  then l <- dataToLookup items ;;
       Ok [(endpoint api l, l)]
  else match items with
       | VArr l =>
           fold_left
             (fun set item =>
                s <- set ;;
                found <- parseRelationshipLookups item ;;
                Ok (assign s found))
             l (Ok [])
       | VObj kvs =>
           fold_left
             (fun set (kv : string * jsval) =>
                s <- set ;;
                found <- (let (_, item) := kv in parseRelationshipLookups item) ;;
                Ok (assign s found))
             kvs (Ok [])
       | _ => Ok []
       end.

(** ** Traversal *)

(** One [this.api.getEntity(l, depth)] call. *)
Record request : Type := { lookup_key : Lookup.t; at_depth : Z }.

(** [loadRelationshipGroup(group, depth)]: the [getEntity] calls it makes,
    in order. *)
Definition loadRelationshipGroup (e : Entity) (group : string) (depth : Z)
  : result (list request) :=
  g <- get (data e) group ;;
  if negb (isCollection e) && truthy g
  then names <- relationshipFieldNames e group ;;
       found <- parseRelationshipLookups (VArr (map (fun k => prop g k) names)) ;;
       Ok (map (fun l => {| lookup_key := l; at_depth := depth + 1 |})
             (filter (fun l => negb (hasBeenTraversed api l)) (map snd found)))
  else Ok [].

(** The calls [loadRelationships(depth)] makes over all groups. *)
Definition loadRelationships_requests (e : Entity) (depth : Z) : result (list request) :=
  fold_left
    (fun promises group =>
       ps <- promises ;;
       qs <- loadRelationshipGroup e group depth ;;
       Ok (ps ++ qs)%list)
    (relationshipGroups e) (Ok []).

(** [Promise.all(ps)]: rejected once a member is, fulfilled once all are. *)
Definition Promise_all (ps : list promise) : promise :=
  if existsb (fun p => match p with Rejected => true | _ => false end) ps
  then Rejected
  else if forallb (fun p => match p with Fulfilled => true | _ => false end) ps
       then Fulfilled
       else Pending.

(** [loadRelationships(depth)]: the promise the async method returns. *)
Definition loadRelationships (e : Entity) (depth : Z) : promise :=
  match loadRelationships_requests e depth with
  | Ok rs => Promise_all (map (fun r => getEntity api (lookup_key r) (at_depth r)) rs)
  | Err _ => Rejected
  end.
End Resolution.

(** ** The other methods of the class *)

(** [constructor(api, apiData, { cleanEntity })]: the option replaces the
    default [d => this.transform(d)]; the other options keep their
    defaults. *)
Definition construct_with (cleanEntity : jsval -> result jsval) (apiData : jsval)
  : result Entity :=
  res <- cleanEntity apiData ;;
  data <- getData res ;;
  Ok {| res := res;
        data := data;
        attrs := if truthy res && truthy (prop res "data")
                    && truthy (prop (prop res "data") "attributes")
                 then prop (prop res "data") "attributes"
                 else VObj [];
        relationshipGroups := ["relationships"];
        _fieldMap := [];
        _id := VNull |}.

(** [toObject()] *)
Definition toObject (e : Entity) : jsval := res e.

(** What [allValues] hands back: the array of resolved values, or the field
    as it is when neither it nor its [data] is an array. *)
Inductive values : Type :=
| Resolved (items : list rv)
| Raw (fields : jsval).

(** [a.map(f)] where [f] may throw: the first exception ends the loop. *)
Fixpoint map_result {A B} (f : A -> result B) (l : list A) : result (list B) :=
  match l with
  | [] => Ok []
  | x :: t => y <- f x ;; ys <- map_result f t ;; Ok (y :: ys)
  end.

(** [allValues(name)].  [depth] bounds the nesting of calls as in [value]:
    the [value] calls made below this one have one frame less. *)
Definition allValues (api : Api) (depth : nat) (name : string) : M values :=
  match depth with
  | O => throw RangeError
  | S depth' =>
      fields <~ field name ;;
      fields <~ lift (if isArray fields then Ok fields
                      else d <- get fields "data" ;;
                           Ok (if isArray d then d else fields)) ;;
      match fields with
      | VArr l =>
          items <~ lift (map_result
                           (fun f => getFieldValue api (value api depth') f 0) l) ;;
          ret (Resolved items)
      | _ => ret (Raw fields)
      end
  end.

(** * Notions used in the statements *)

Definition digit (c : ascii) : bool :=
  let n := nat_of_ascii c in Nat.leb 48 n && Nat.leb n 57.

(** A property key that is not an array index: it does not start with a
    digit. *)
Definition named (k : string) : bool :=
  match k with
  | String c _ => negb (digit c)
  | EmptyString => true
  end.

(** The array branch of [cleanField], on the member [data] of an object. *)
Definition cleanData (d : jsval) : jsval :=
  match d with
  | VArr l => VArr (map cleanField l)
  | _ => d
  end.

(** What [cleanFields] produces: distinct names that pass [fieldTests], each
    with a cleaned value. *)
Definition cleaned_group (out : list (string * jsval)) : Prop :=
  NoDup (map fst out) /\
  Forall (fun kv => fieldTests (fst kv) = true /\ cleanField (snd kv) = snd kv) out.

(** What [transform] produces: an object without [jsonapi] and [links] whose
    [data] is an object with no truthy [links] and with cleaned
    [attributes] and [relationships]. *)
Definition transformed (r : jsval) : Prop :=
  exists top dk ca cr,
    r = VObj top /\
    ~ In "jsonapi" (map fst top) /\
    ~ In "links" (map fst top) /\
    lookup "data" top = Some (VObj dk) /\
    truthy (prop (VObj dk) "links") = false /\
    lookup "attributes" dk = Some (VObj ca) /\
    lookup "relationships" dk = Some (VObj cr) /\
    cleaned_group ca /\ cleaned_group cr.

(** The first three statements of [transform]. *)
Definition transform_deletes (r : jsval) : result jsval :=
  res <- delete r "jsonapi" ;;
  res <- delete res "links" ;;
  if truthy (prop res "data") && truthy (prop (prop res "data") "links")
  then d <- delete (prop res "data") "links" ;; Ok (assign1 res "data" d)
  else Ok res.

(** [Reach items r]: the reference [r] is met when descending from [items]
    through array elements and object members, never past a value the
    relationship predicate accepts. *)
Inductive Reach : jsval -> jsval -> Prop :=
| Reach_here (v : jsval) :
    isRelationship v = Ok true -> Reach v v
| Reach_element (l : list jsval) (x r : jsval) :
    isRelationship (VArr l) = Ok false ->
    In x l -> Reach x r -> Reach (VArr l) r
| Reach_member (kvs : list (string * jsval)) (k : string) (x r : jsval) :
    isRelationship (VObj kvs) = Ok false ->
    In (k, x) kvs -> Reach x r -> Reach (VObj kvs) r.

(** Every [type] member found in [v], at any depth, is a string. *)
Fixpoint typed_by_strings (v : jsval) : bool :=
  match v with
  | VArr l => forallb typed_by_strings l
  | VObj kvs =>
      match prop v "type" with
      | VUndef | VStr _ => true
      | _ => false
      end
      && forallb (fun kv : string * jsval => let (_, x) := kv in typed_by_strings x) kvs
  | _ => true
  end.

(** What a set of lookups says about the references [R] it was collected
    from: one entry per endpoint, each entry the lookup of a reference of
    [R] under its endpoint, and every reference of [R] represented. *)
Definition collects (api : Api) (R : jsval -> Prop)
    (found : list (string * Lookup.t)) : Prop :=
  NoDup (map fst found) /\
  (forall key l, In (key, l) found ->
                 exists r, R r /\ dataToLookup r = Ok l /\ endpoint api l = key) /\
  (forall r, R r ->
             exists l, dataToLookup r = Ok l /\ In (endpoint api l) (map fst found)).

(** The step of the [reduce] in [parseRelationshipLookups]. *)
Definition gather (api : Api) {A} (item : A -> jsval)
    (set : result (list (string * Lookup.t))) (a : A) :=
  s <- set ;;
  found <- parseRelationshipLookups api (item a) ;;
  Ok (assign s found).

(** The call [loadRelationshipGroup] makes for a lookup. *)
Definition request_for (depth : Z) (l : Lookup.t) : request :=
  {| lookup_key := l; at_depth := depth + 1 |}.

(** The filter of [loadRelationshipGroup]. *)
Definition untraversed (api : Api) (l : Lookup.t) : bool :=
  negb (hasBeenTraversed api l).

(** * Sample payloads and collaborators *)

(** A [node--article] resource with a numeric id attribute and a title. *)
Definition article : jsval :=
  VObj [("data",
         VObj [("type", VStr "node--article");
               ("id", VStr "7d1c");
               ("attributes",
                VObj [("drupal_internal__nid", VNum 42);
                      ("field_title", VStr "Hello")]);
               ("relationships", VObj [])])].

(** The same resource without a [relationships] member. *)
Definition article_without_relationships : jsval :=
  VObj [("data",
         VObj [("type", VStr "node--article");
               ("id", VStr "7d1c");
               ("attributes", VObj [("field_title", VStr "Hello")])])].

(** A collection of one resource. *)
Definition article_collection : jsval :=
  VObj [("data",
         VArr [VObj [("type", VStr "node--article");
                     ("id", VStr "7d1c");
                     ("attributes", VObj [("field_title", VStr "Hello")]);
                     ("relationships", VObj [])]])].

(** A resource where [field_image] is both an attribute and a
    relationship. *)
Definition overlapping : jsval :=
  VObj [("data",
         VObj [("type", VStr "node--page");
               ("id", VStr "c0de");
               ("attributes", VObj [("field_image", VStr "plain")]);
               ("relationships",
                VObj [("field_image",
                       VObj [("data", VObj [("type", VStr "file--file");
                                            ("id", VStr "f11e")])])])])].

(** A document as the backend sends it: envelope members, [links] on the
    resource and on a relationship, a to-many relationship, and members the
    transform drops. *)
Definition tagged_article : jsval :=
  VObj [("jsonapi", VObj [("version", VStr "1.0")]);
        ("data",
         VObj [("type", VStr "node--article");
               ("id", VStr "7d1c");
               ("links", VObj [("self", VObj [("href", VStr "/node/1")])]);
               ("attributes",
                VObj [("drupal_internal__nid", VNum 42);
                      ("langcode", VStr "en");
                      ("title", VStr "Hello");
                      ("field_title", VStr "Hello")]);
               ("relationships",
                VObj [("uid", VObj [("data", VObj [("type", VStr "user--user");
                                                   ("id", VStr "0a0a")])]);
                      ("field_tags",
                       VObj [("data",
                              VArr [VObj [("type", VStr "taxonomy_term--tags");
                                          ("id", VStr "aaaa");
                                          ("links", VObj [("self", VStr "/t/1")])];
                                    VObj [("type", VStr "taxonomy_term--tags");
                                          ("id", VStr "bbbb")]]);
                             ("links", VObj [("self", VStr "/rel/tags")])])])]);
        ("links", VObj [("self", VStr "/node/1")])].

(** [tagged_article] once transformed. *)
Definition tagged_article_clean : jsval :=
  VObj [("data",
         VObj [("type", VStr "node--article");
               ("id", VStr "7d1c");
               ("attributes",
                VObj [("title", VStr "Hello");
                      ("field_title", VStr "Hello")]);
               ("relationships",
                VObj [("field_tags",
                       VObj [("data",
                              VArr [VObj [("type", VStr "taxonomy_term--tags");
                                          ("id", VStr "aaaa")];
                                    VObj [("type", VStr "taxonomy_term--tags");
                                          ("id", VStr "bbbb")]])])])])].

(** The entity [construct] makes of a payload it accepts. *)
Definition built (payload : jsval) : Entity :=
  match construct payload with
  | Ok e => e
  | Err _ => {| res := VUndef; data := VUndef; attrs := VUndef;
                relationshipGroups := []; _fieldMap := []; _id := VNull |}
  end.

(** A page that embeds a paragraph from the paragraphs library, the library
    wrapper, the library item and the paragraph the item holds. *)
Definition library_reference : jsval :=
  VObj [("type", VStr "paragraph--from_library"); ("id", VStr "11b0")].

Definition page_with_library_paragraph : jsval :=
  VObj [("data",
         VObj [("type", VStr "node--page");
               ("id", VStr "c0de");
               ("attributes", VObj []);
               ("relationships",
                VObj [("field_content",
                       VObj [("data", VArr [library_reference])])])])].

Definition library_paragraph : jsval :=
  VObj [("data",
         VObj [("type", VStr "paragraph--from_library");
               ("id", VStr "11b0");
               ("attributes", VObj []);
               ("relationships",
                VObj [("field_reusable_paragraph",
                       VObj [("data",
                              VObj [("type", VStr "paragraphs_library_item--paragraphs_library_item");
                                    ("id", VStr "17e0")])])])])].

Definition library_item : jsval :=
  VObj [("data",
         VObj [("type", VStr "paragraphs_library_item--paragraphs_library_item");
               ("id", VStr "17e0");
               ("attributes", VObj [("label", VStr "Shared text")]);
               ("relationships",
                VObj [("paragraphs",
                       VObj [("data", VObj [("type", VStr "paragraph--text");
                                            ("id", VStr "7e47")])])])])].

Definition text_paragraph : jsval :=
  VObj [("data",
         VObj [("type", VStr "paragraph--text");
               ("id", VStr "7e47");
               ("attributes", VObj [("field_text", VStr "Shared")]);
               ("relationships", VObj [])])].

(** The canonical key of a lookup: kind, bundle and uuid joined by [/]. *)
Definition path_endpoint (l : Lookup.t) : string :=
  to_string (Lookup.entity l) ++ "/" ++ to_string (Lookup.bundle l)
  ++ "/" ++ to_string (Lookup.uuid l).

(** A collaborator whose cache holds the three entities above and that has
    traversed nothing yet. *)
Definition library_api : Api :=
  {| getEntity := fun _ _ => Pending;
     getRelationship := fun v =>
       if is_str (prop v "id") "11b0" then Ok (Instance (built library_paragraph))
       else if is_str (prop v "id") "17e0" then Ok (Instance (built library_item))
       else if is_str (prop v "id") "7e47" then Ok (Instance (built text_paragraph))
       else Err (Error "not in the cache");
     hasBeenTraversed := fun _ => false;
     endpoint := path_endpoint |}.

(** References at several depths: inside arrays and plain objects, one met
    twice, and one that sits inside another reference. *)
Definition nested_references : jsval :=
  VArr [VObj [("data",
               VArr [VObj [("type", VStr "taxonomy_term--tags"); ("id", VStr "aaaa")];
                     VObj [("type", VStr "taxonomy_term--tags"); ("id", VStr "bbbb")]])];
        VObj [("data",
               VObj [("type", VStr "file--file");
                     ("id", VStr "f11e");
                     ("meta",
                      VObj [("owner", VObj [("type", VStr "user--user");
                                            ("id", VStr "0a0a")])])])];
        VStr "plain";
        VArr [VObj [("type", VStr "taxonomy_term--tags"); ("id", VStr "aaaa")]]].

(** A resource whose only relationship is called [title]: the transform
    keeps the name, [relationshipTests] does not match it. *)
Definition titled_reference : jsval :=
  VObj [("data",
         VObj [("type", VStr "node--article");
               ("id", VStr "7d1c");
               ("attributes", VObj []);
               ("relationships",
                VObj [("title",
                       VObj [("data", VObj [("type", VStr "node--page");
                                            ("id", VStr "c0de")])])])])].

(** A collaborator whose fetch of the tag [aaaa] has failed while the other
    fetches are still under way. *)
Definition failing_api : Api :=
  {| getEntity := fun l _ => if is_str (Lookup.uuid l) "aaaa" then Rejected else Pending;
     getRelationship := fun _ => Err (Error "not in the cache");
     hasBeenTraversed := fun _ => false;
     endpoint := path_endpoint |}.

Fixpoint has_slash (s : string) : bool :=
  match s with
  | EmptyString => false
  | String c t => Ascii.eqb c "/" || has_slash t
  end.

(** * Further notions and samples *)

(** [v == null] *)
Definition nullish (v : jsval) : bool :=
  match v with
  | VUndef | VNull => true
  | _ => false
  end.

(** What [transform] makes of an object [top] whose [data] is the object
    [dk], given the cleaned [attributes] and [relationships]. *)
Definition transform_result (top dk : list (string * jsval)) (ca cr : jsval) : jsval :=
  VObj (set_key "data"
          (VObj (set_key "relationships" cr
                   (set_key "attributes" ca
                      (if truthy (prop (VObj dk) "links")
                       then remove_key "links" dk else dk))))
          (remove_key "links" (remove_key "jsonapi" top))).

(** The members of an object. *)
Definition members (v : jsval) : list (string * jsval) :=
  match v with
  | VObj kvs => kvs
  | _ => []
  end.

(** The array [allValues] walks through: the field itself, or its [data]. *)
Definition to_many (f : jsval) : option (list jsval) :=
  match f with
  | VArr l => Some l
  | VUndef | VNull => None
  | _ => match prop f "data" with
         | VArr l => Some l
         | _ => None
         end
  end.

(** [cleanEntity: d => d], the transform switched off. *)
Definition keep_as_is (d : jsval) : result jsval := Ok d.

(** A collection of two resources. *)
Definition two_articles : jsval :=
  VObj [("data",
         VArr [VObj [("type", VStr "node--article"); ("id", VStr "7d1c");
                     ("attributes", VObj [("title", VStr "One")])];
               VObj [("type", VStr "node--article"); ("id", VStr "9e2f");
                     ("attributes", VObj [("title", VStr "Two")])]])].

(** A relationship with [links], next to attributes of every kind of name. *)
Definition mixed_fields : list (string * jsval) :=
  [("field_tags",
    VObj [("data", VArr [VObj [("type", VStr "taxonomy_term--tags");
                               ("id", VStr "aaaa");
                               ("links", VObj [("self", VStr "/t/1")])]]);
          ("links", VObj [("self", VStr "/rel/tags")])]);
   ("langcode", VStr "en");
   ("drupal_internal_nid", VNum 42);
   ("path", VObj [("alias", VStr "/hello")]);
   ("uid", VObj [("data", VObj [("type", VStr "user--user"); ("id", VStr "0a0a")])])].

(** * Properties *)

#[local] Arguments String.eqb : simpl never.

(** Decide the comparison of two string literals. *)
Ltac eqb_literals :=
  repeat match goal with
         | |- context [String.eqb (String ?a ?s) (String ?b ?t)] =>
             let r := eval vm_compute in (String.eqb (String a s) (String b t)) in
             match r with
             | true => idtac
             | false => idtac
             end;
             change (String.eqb (String a s) (String b t)) with r
         end.

(** ** The primitives on sample inputs *)

Example split_article : split "node--article" = ["node"; "article"].
Proof. reflexivity. Qed.

Example split_three_dashes : split "a---b" = ["a"; "-b"].
Proof. reflexivity. Qed.

Example split_without_separator : split "node" = ["node"].
Proof. reflexivity. Qed.

Example id_test_accepts_nid : re_is_id "drupal_internal__nid" = true.
Proof. reflexivity. Qed.

Example clean_test_rejects_nid : fieldTests "drupal_internal__nid" = false.
Proof. reflexivity. Qed.

Example clean_test_accepts_one_underscore : fieldTests "drupal_internal_nid" = true.
Proof. reflexivity. Qed.

Example reference_is_relationship :
  isRelationship (VObj [("type", VStr "node--page"); ("id", VStr "c0de")]) = Ok true.
Proof. reflexivity. Qed.

Example one_letter_kind_is_no_relationship :
  isRelationship (VObj [("type", VStr "a--b"); ("id", VStr "c0de")]) = Ok false.
Proof. reflexivity. Qed.

Example numeric_type_throws :
  isRelationship (VObj [("type", VNum 5); ("id", VStr "c0de")]) = Err TypeError.
Proof. reflexivity. Qed.

Example inherited_processor :
  valueProcessor (VStr "toString") = Some (Ok (Builtin "toString" (VStr "toString"))).
Proof. reflexivity. Qed.

Example no_processor : valueProcessor (VStr "Hello") = None.
Proof. reflexivity. Qed.

(** ** Association lists *)

Lemma lookup_app {A} (k : string) (l1 l2 : list (string * A)) :
  lookup k (l1 ++ l2) =
  match lookup k l1 with
  | Some v => Some v
  | None => lookup k l2
  end.
Proof.
  induction l1 as [|[k' v] l1 IH]; simpl; [reflexivity|].
  destruct (String.eqb k k'); [reflexivity | exact IH].
Qed.

Lemma lookup_set_key {A} (k k' : string) (v : A) (m : list (string * A)) :
  lookup k (set_key k' v m) = if String.eqb k k' then Some v else lookup k m.
Proof.
  induction m as [|[k0 v0] m IH]; simpl.
  - reflexivity.
  - destruct (String.eqb k' k0) eqn:E; simpl.
    + apply String.eqb_eq in E; subst k0.
      destruct (String.eqb k k'); reflexivity.
    + rewrite IH. destruct (String.eqb k k') eqn:E'; [|reflexivity].
      apply String.eqb_eq in E'; subst k'. rewrite E. reflexivity.
Qed.

Lemma lookup_remove_key {A} (k k' : string) (m : list (string * A)) :
  lookup k (remove_key k' m) = if String.eqb k k' then None else lookup k m.
Proof.
  induction m as [|[k0 v0] m IH]; simpl.
  - destruct (String.eqb k k'); reflexivity.
  - destruct (String.eqb k' k0) eqn:E; simpl.
    + apply String.eqb_eq in E; subst k0. rewrite IH.
      destruct (String.eqb k k'); reflexivity.
    + rewrite IH. destruct (String.eqb k k') eqn:E'; [|reflexivity].
      apply String.eqb_eq in E'; subst k'. rewrite E. reflexivity.
Qed.

Lemma lookup_In {A} (k : string) (m : list (string * A)) :
  In k (map fst m) -> exists v, lookup k m = Some v /\ In (k, v) m.
Proof.
  induction m as [|[k0 v0] m IH]; simpl; [tauto|].
  intros [->|Hin].
  - rewrite String.eqb_refl. eauto.
  - destruct (String.eqb k k0) eqn:E.
    + apply String.eqb_eq in E; subst k0. eauto.
    + destruct (IH Hin) as [v [Hv Hi]]. eauto.
Qed.

Lemma lookup_Some_In {A} (k : string) (v : A) (m : list (string * A)) :
  lookup k m = Some v -> In (k, v) m.
Proof.
  induction m as [|[k0 v0] m IH]; simpl; [discriminate|].
  destruct (String.eqb k k0) eqn:E.
  - apply String.eqb_eq in E; subst k0. intros [= ->]. now left.
  - intros H. right. auto.
Qed.

Lemma lookup_None {A} (k : string) (m : list (string * A)) :
  lookup k m = None <-> ~ In k (map fst m).
Proof.
  split.
  - intros H Hin. destruct (lookup_In _ _ Hin) as [v [Hv _]]. congruence.
  - intros H. destruct (lookup k m) eqn:E; [|reflexivity].
    exfalso. apply H. apply lookup_Some_In in E.
    apply (in_map fst) in E. exact E.
Qed.

(** A [Map] or object filled by successive assignments answers with the
    last value assigned under the key. *)
Lemma lookup_fold_set {A} (k : string) (pairs m0 : list (string * A)) :
  lookup k (fold_left (fun m kp => set_key (fst kp) (snd kp) m) pairs m0) =
  match lookup k (rev pairs) with
  | Some v => Some v
  | None => lookup k m0
  end.
Proof.
  revert m0. induction pairs as [|[k1 v1] pairs IH]; intros m0; simpl.
  - reflexivity.
  - rewrite IH, lookup_app, lookup_set_key. simpl.
    destruct (lookup k (rev pairs)); [reflexivity|].
    destruct (String.eqb k k1); reflexivity.
Qed.

(** ** [split] and [join] *)

Lemma split_from_step (cur : string) (c : ascii) (s : string) :
  split_from cur (String c s) =
  match s with
  | String c' rest =>
      if Ascii.eqb c "-" && Ascii.eqb c' "-"
      then cur :: split_from "" rest
      else split_from (cur ++ String c "") s
  | EmptyString => split_from (cur ++ String c "") s
  end.
Proof.
  destruct s as [|c' rest].
  - destruct c as [[] [] [] [] [] [] [] []]; reflexivity.
  - destruct c as [[] [] [] [] [] [] [] []]; try reflexivity.
    destruct c' as [[] [] [] [] [] [] [] []]; reflexivity.
Qed.

Lemma separators_step (c : ascii) (s : string) :
  separators (String c s) =
  match s with
  | String c' rest =>
      if Ascii.eqb c "-" && Ascii.eqb c' "-"
      then S (separators rest)
      else separators s
  | EmptyString => separators s
  end.
Proof.
  destruct s as [|c' rest].
  - destruct c as [[] [] [] [] [] [] [] []]; reflexivity.
  - destruct c as [[] [] [] [] [] [] [] []]; try reflexivity.
    destruct c' as [[] [] [] [] [] [] [] []]; reflexivity.
Qed.

Lemma append_assoc (a b c : string) : (a ++ b) ++ c = a ++ (b ++ c).
Proof. induction a; simpl; congruence. Qed.

Lemma append_empty (a : string) : a ++ "" = a.
Proof. induction a; simpl; congruence. Qed.

(** With no separator left the rest of the string is one piece. *)
Lemma split_from_no_separator (n : nat) :
  forall s cur, String.length s <= n -> separators s = 0 ->
                split_from cur s = [cur ++ s].
Proof.
  induction n as [|n IH]; intros s cur Hlen Hsep.
  - destruct s; [simpl; now rewrite append_empty | simpl in Hlen; lia].
  - destruct s as [|c s]; [simpl; now rewrite append_empty|].
    rewrite split_from_step. rewrite separators_step in Hsep.
    simpl in Hlen.
    destruct s as [|c' rest].
    + simpl. reflexivity.
    + destruct (Ascii.eqb c "-" && Ascii.eqb c' "-"); [discriminate|].
      rewrite IH by (simpl in *; auto; lia).
      now rewrite append_assoc.
Qed.

(** With one separator there are two pieces, and joining them with the
    separator gives the string back. *)
Lemma split_from_one_separator (n : nat) :
  forall s cur, String.length s <= n -> separators s = 1 ->
                exists a b, split_from cur s = [cur ++ a; b] /\ a ++ "--" ++ b = s.
Proof.
  induction n as [|n IH]; intros s cur Hlen Hsep.
  - destruct s; simpl in *; [discriminate | lia].
  - destruct s as [|c s]; [discriminate|].
    rewrite split_from_step. rewrite separators_step in Hsep.
    simpl in Hlen.
    destruct s as [|c' rest]; [discriminate|].
    destruct (Ascii.eqb c "-" && Ascii.eqb c' "-") eqn:E.
    + apply andb_true_iff in E. destruct E as [E1 E2].
      apply Ascii.eqb_eq in E1, E2. subst c c'.
      injection Hsep as Hsep.
      exists "", rest. split.
      * rewrite append_empty. f_equal.
        rewrite (split_from_no_separator (String.length rest)); auto.
      * reflexivity.
    + destruct (IH (String c' rest) (cur ++ String c "")) as [a [b [Hs Hj]]].
      * simpl in *; lia.
      * exact Hsep.
      * exists (String c a), b. split.
        -- rewrite Hs, append_assoc. reflexivity.
        -- rewrite <- Hj. reflexivity.
Qed.

(** ** Kind and bundle *)

(** C8.  For a resource whose [type] string holds exactly one [--]
    separator, the [entity] getter, the literal [--] and the [bundle] getter
    concatenate to the [type] string. *)
Theorem entity_bundle_rebuild_type (e : Entity) (d : jsval) (t : string) :
  get (res e) "data" = Ok d ->
  get d "type" = Ok (VStr t) ->
  separators t = 1 ->
  exists k b,
    entity e = Ok (VStr k) /\ bundle e = Ok (VStr b) /\ k ++ "--" ++ b = t.
Proof.
  intros Hd Ht Hsep.
  destruct (split_from_one_separator (String.length t) t "" (le_n _) Hsep)
    as [a [b [Hs Hj]]].
  exists a, b. unfold entity, bundle. rewrite Hd. simpl. rewrite Ht. simpl.
  unfold split. rewrite Hs. simpl. auto.
Qed.

Lemma entity_bundle_rebuild_type_witness :
  exists k b,
    entity (built article) = Ok (VStr k) /\
    bundle (built article) = Ok (VStr b) /\
    k ++ "--" ++ b = "node--article".
Proof.
  apply (entity_bundle_rebuild_type (built article)
           (prop (res (built article)) "data")); reflexivity.
Defined.

(** ** The field map *)

Lemma fieldMap_first_use (e : Entity) (pairs : list (string * list string)) :
  isCollection e = false ->
  _fieldMap e = [] ->
  fieldPairs e = Ok pairs ->
  fst (fieldMap e) = Ok (new_Map pairs).
Proof.
  intros Hc Hm Hp. unfold fieldMap, bindM, this, lift.
  rewrite Hc, Hm. simpl. rewrite Hp. reflexivity.
Qed.

Lemma fieldMap_keeps_res (e : Entity) : res (snd (fieldMap e)) = res e.
Proof.
  unfold fieldMap, bindM, this, lift, ret.
  destruct (negb (isCollection e) && Nat.eqb (List.length (_fieldMap e)) 0).
  - destruct (fieldPairs e); reflexivity.
  - reflexivity.
Qed.

Lemma lookup_makePath (name : string) (ns path : list string) :
  In name ns ->
  lookup name (rev (makePath ns path)) = Some (path ++ [name])%list.
Proof.
  intros Hin. unfold makePath. rewrite <- map_rev.
  apply (in_rev ns) in Hin. induction (rev ns) as [|k l IH]; simpl in *.
  - contradiction.
  - destruct (String.eqb name k) eqn:E.
    + apply String.eqb_eq in E. now subst k.
    + destruct Hin as [->|Hin]; [now rewrite String.eqb_refl in E | auto].
Qed.

(** C10.  A name that is an attribute key and also a relationship field
    name passing [relationshipTests] is mapped to the relationship path
    [data, relationships, name]: the pairs of the attributes come first and
    a later pair replaces an earlier one. *)
Theorem relationship_path_wins (e : Entity) (name : string) (ks ns : list string) :
  isCollection e = false ->
  _fieldMap e = [] ->
  relationshipGroups e = ["relationships"] ->
  keys (attrs e) = Ok ks ->
  relationshipFieldNames e "relationships" = Ok ns ->
  In name ks ->
  In name ns ->
  exists m,
    fst (fieldMap e) = Ok m /\
    lookup name m = Some ["data"; "relationships"; name] /\
    fieldPairs e =
      Ok (makePath ks ["data"; "attributes"] ++ makePath ns ["data"; "relationships"])%list.
Proof.
  intros Hc Hm Hg Hks Hns Hk Hn.
  assert (Hp : fieldPairs e =
               Ok (makePath ks ["data"; "attributes"]
                   ++ makePath ns ["data"; "relationships"])%list).
  { unfold fieldPairs. rewrite Hks, Hg. simpl. rewrite Hns. reflexivity. }
  eexists. split; [apply (fieldMap_first_use e _ Hc Hm Hp)|]. split; [|exact Hp].
  unfold new_Map. rewrite lookup_fold_set, rev_app_distr, lookup_app.
  rewrite (lookup_makePath name ns ["data"; "relationships"] Hn). reflexivity.
Qed.

Lemma relationship_path_wins_witness :
  exists m,
    fst (fieldMap (built overlapping)) = Ok m /\
    lookup "field_image" m = Some ["data"; "relationships"; "field_image"] /\
    fieldPairs (built overlapping) =
      Ok (makePath ["field_image"] ["data"; "attributes"]
          ++ makePath ["field_image"] ["data"; "relationships"])%list.
Proof.
  apply (relationship_path_wins (built overlapping) "field_image"
           ["field_image"] ["field_image"]);
    try reflexivity; simpl; auto.
Defined.



(** ** Construction with the default transform *)

(** C1.  The scenario as the code runs it: the [node--article] resource with
    [drupal_internal__nid = 42] and [field_title = "Hello"] is accepted,
    [value('field_title')] is ["Hello"], the kind is [node] and the bundle
    [article]; the [id] getter answers [null], because [cleanFields] tests
    [drupal_internal_] with one underscore before the optional letter and
    so removes the attribute the getter looks for. *)
Theorem article_scenario (api : Api) :
  exists e,
    construct article = Ok e /\
    fst (value api 1 "field_title" e) = Ok (Plain (VStr "Hello")) /\
    entity e = Ok (VStr "node") /\
    bundle e = Ok (VStr "article") /\
    fst (id e) = Ok VNull /\
    attrs e = VObj [("field_title", VStr "Hello")].
Proof.
  eexists. split; [reflexivity|]. repeat split; reflexivity.
Qed.

(** C6.  A resource without a [relationships] member, and a collection, are
    both refused by the constructor: [cleanFields] calls [Object.keys] on
    the missing member. *)
Theorem construct_without_relationships_throws :
  construct article_without_relationships = Err TypeError /\
  construct article_collection = Err TypeError.
Proof. split; reflexivity. Qed.

(** ** Property keys *)

Lemma index_key_not_named (i : nat) : named (index_key i) = false.
Proof.
  unfold index_key, NilZero.string_of_uint.
  destruct (Nat.to_uint i); reflexivity.
Qed.

Lemma named_not_index (k : string) (i : nat) :
  named k = true -> String.eqb k (index_key i) = false.
Proof.
  intros H. destruct (String.eqb k (index_key i)) eqn:E; [|reflexivity].
  apply String.eqb_eq in E. subst k.
  rewrite index_key_not_named in H. discriminate.
Qed.

Lemma arr_get_named (l : list jsval) (i : nat) (k : string) :
  named k = true -> arr_get l i k = VUndef.
Proof.
  intros H. revert i. induction l as [|x l IH]; intros i; simpl.
  - reflexivity.
  - rewrite (named_not_index k i H). apply IH.
Qed.

Lemma fieldTests_named (k : string) : fieldTests k = true -> named k = true.
Proof.
  destruct k as [|c k]; [reflexivity|].
  intros H.
  destruct c as [[] [] [] [] [] [] [] []]; try reflexivity;
    cbn in H; discriminate.
Qed.

Lemma relationshipTests_named (k : string) :
  relationshipTests k = true -> named k = true.
Proof.
  destruct k as [|c k]; [reflexivity|].
  intros H.
  destruct c as [[] [] [] [] [] [] [] []]; try reflexivity;
    cbn in H; discriminate.
Qed.

Lemma filter_indices (test : string -> bool) (i n : nat) :
  (forall k, test k = true -> named k = true) ->
  filter test (indices i n) = [].
Proof.
  intros Ht. revert i. induction n as [|n IH]; intros i; simpl.
  - reflexivity.
  - destruct (test (index_key i)) eqn:E.
    + apply Ht in E. rewrite index_key_not_named in E. discriminate.
    + apply IH.
Qed.

(** Only an object has own properties with names that pass a test on
    names. *)
Lemma filter_keys_not_object (test : string -> bool) (o : jsval) (ks : list string) :
  (forall k, test k = true -> named k = true) ->
  keys o = Ok ks ->
  (forall kvs, o <> VObj kvs) ->
  filter test ks = [].
Proof.
  intros Ht Hk Ho. destruct o; simpl in Hk; try discriminate;
    injection Hk as <-; try reflexivity.
  - apply filter_indices; exact Ht.
  - apply filter_indices; exact Ht.
  - exfalso. exact (Ho _ eq_refl).
Qed.

Lemma prop_not_object (o : jsval) (k : string) :
  named k = true ->
  String.eqb k "length" = false ->
  (forall kvs, o <> VObj kvs) ->
  prop o k = VUndef.
Proof.
  intros Hn Hl Ho. destruct o; simpl; try reflexivity.
  - rewrite Hl. now apply arr_get_named.
  - rewrite Hl. now apply arr_get_named.
  - exfalso. exact (Ho _ eq_refl).
Qed.

(** ** [cleanField] *)

Lemma cleanField_VObj (kvs : list (string * jsval)) :
  cleanField (VObj kvs) =
  if truthy (prop (VObj kvs) "links")
     && truthy (prop (prop (VObj kvs) "links") "self")
  then VObj (remove_key "links" (on_data cleanData kvs))
  else VObj (on_data cleanData kvs).
Proof. reflexivity. Qed.

Lemma on_data_set_key (f : jsval -> jsval) (kvs : list (string * jsval)) :
  on_data f kvs =
  match lookup "data" kvs with
  | Some d => set_key "data" (f d) kvs
  | None => kvs
  end.
Proof.
  induction kvs as [|[k v] kvs IH]; simpl; [reflexivity|].
  destruct (String.eqb "data" k) eqn:E.
  - apply String.eqb_eq in E. now subst k.
  - rewrite IH. destruct (lookup "data" kvs); reflexivity.
Qed.

Lemma lookup_on_data (k : string) (f : jsval -> jsval) (kvs : list (string * jsval)) :
  lookup k (on_data f kvs) =
  if String.eqb k "data" then option_map f (lookup "data" kvs) else lookup k kvs.
Proof.
  induction kvs as [|[k0 v0] kvs IH]; simpl.
  - destruct (String.eqb k "data"); reflexivity.
  - destruct (String.eqb "data" k0) eqn:E; simpl.
    + apply String.eqb_eq in E; subst k0.
      destruct (String.eqb k "data"); reflexivity.
    + rewrite IH. destruct (String.eqb k k0) eqn:E'; [|reflexivity].
      apply String.eqb_eq in E'; subst k0.
      rewrite String.eqb_sym in E. rewrite E. reflexivity.
Qed.

Lemma remove_links_on_data (f : jsval -> jsval) (kvs : list (string * jsval)) :
  remove_key "links" (on_data f kvs) = on_data f (remove_key "links" kvs).
Proof.
  induction kvs as [|[k v] kvs IH]; simpl; [reflexivity|].
  destruct (String.eqb "data" k) eqn:E.
  - apply String.eqb_eq in E; subst k. simpl. reflexivity.
  - simpl. destruct (String.eqb "links" k); simpl.
    + exact IH.
    + rewrite E, IH. reflexivity.
Qed.

Lemma on_data_twice (f : jsval -> jsval) (kvs : list (string * jsval)) :
  (forall d, lookup "data" kvs = Some d -> f (f d) = f d) ->
  on_data f (on_data f kvs) = on_data f kvs.
Proof.
  induction kvs as [|[k v] kvs IH]; simpl; intros Hf; [reflexivity|].
  destruct (String.eqb "data" k) eqn:E; simpl; rewrite E.
  - rewrite Hf; [reflexivity|].
    apply String.eqb_eq in E. subst k. reflexivity.
  - rewrite IH; [reflexivity|]. exact Hf.
Qed.

(** [cleanField] on an object, in the order of the source: drop [links],
    then clean the array under [data]. *)
Lemma cleanField_object (kvs : list (string * jsval)) :
  cleanField (VObj kvs) =
  let field :=
    if truthy (prop (VObj kvs) "links")
       && truthy (prop (prop (VObj kvs) "links") "self")
    then remove_key "links" kvs else kvs in
  if truthy (prop (VObj field) "data") && isArray (prop (VObj field) "data")
  then VObj (set_key "data" (cleanField (prop (VObj field) "data")) field)
  else VObj field.
Proof.
  rewrite cleanField_VObj. cbv zeta.
  assert (H : forall o,
             VObj (on_data cleanData o) =
             if truthy (prop (VObj o) "data") && isArray (prop (VObj o) "data")
             then VObj (set_key "data" (cleanField (prop (VObj o) "data")) o)
             else VObj o).
  { intros o. rewrite on_data_set_key. simpl.
    destruct (lookup "data" o) as [d|] eqn:E; simpl; [|reflexivity].
    destruct d; simpl; rewrite ?andb_false_r; try reflexivity.
    all: f_equal; clear - E; induction o as [|[k v] o IH]; simpl in *;
      try discriminate;
      destruct (String.eqb "data" k) eqn:E'; [|f_equal; auto];
      apply String.eqb_eq in E'; subst k; congruence. }
  destruct (truthy (prop (VObj kvs) "links")
            && truthy (prop (prop (VObj kvs) "links") "self")).
  - rewrite remove_links_on_data. apply H.
  - apply H.
Qed.

Lemma cleanField_idempotent (v : jsval) : cleanField (cleanField v) = cleanField v.
Proof.
  induction v as [| | b | n | s | l IH | kvs IH] using jsval_nested_ind;
    try reflexivity.
  - simpl. f_equal. rewrite map_map. apply map_ext_in.
    intros x Hx. rewrite Forall_forall in IH. auto.
  - assert (Hd : forall d, lookup "data" kvs = Some d ->
                           cleanData (cleanData d) = cleanData d).
    { intros d Hl. apply lookup_Some_In in Hl.
      rewrite Forall_forall in IH. specialize (IH _ Hl). simpl in IH.
      destruct d; try reflexivity. exact IH. }
    rewrite cleanField_VObj.
    destruct (truthy (prop (VObj kvs) "links")
              && truthy (prop (prop (VObj kvs) "links") "self")) eqn:C.
    + rewrite cleanField_VObj.
      replace (prop (VObj (remove_key "links" (on_data cleanData kvs))) "links")
        with VUndef
        by (simpl; now rewrite lookup_remove_key).
      simpl. rewrite remove_links_on_data. f_equal.
      apply on_data_twice. intros d Hl.
      rewrite lookup_remove_key in Hl. apply Hd. exact Hl.
    + rewrite cleanField_VObj.
      replace (prop (VObj (on_data cleanData kvs)) "links")
        with (prop (VObj kvs) "links")
        by (simpl; now rewrite lookup_on_data).
      rewrite C. now rewrite on_data_twice by exact Hd.
Qed.

(** ** [cleanFields] *)

Lemma set_key_fresh {A} (k : string) (v : A) (m : list (string * A)) :
  ~ In k (map fst m) -> set_key k v m = (m ++ [(k, v)])%list.
Proof.
  induction m as [|[k0 v0] m IH]; simpl; intros H; [reflexivity|].
  destruct (String.eqb k k0) eqn:E.
  - apply String.eqb_eq in E. subst k0. exfalso. apply H. now left.
  - f_equal. apply IH. intros Hin. apply H. now right.
Qed.

Lemma set_key_keys {A} (k : string) (v : A) (m : list (string * A)) :
  In k (map fst m) -> map fst (set_key k v m) = map fst m.
Proof.
  induction m as [|[k0 v0] m IH]; simpl; intros H; [contradiction|].
  destruct (String.eqb k k0) eqn:E.
  - apply String.eqb_eq in E. subst k0. reflexivity.
  - simpl. f_equal. apply IH. destruct H as [->|H]; [|exact H].
    rewrite String.eqb_refl in E. discriminate.
Qed.

Lemma set_key_same {A} (k : string) (v : A) (m : list (string * A)) :
  lookup k m = Some v -> set_key k v m = m.
Proof.
  induction m as [|[k0 v0] m IH]; simpl; [discriminate|].
  destruct (String.eqb k k0) eqn:E.
  - apply String.eqb_eq in E. subst k0. now intros [= ->].
  - intros H. f_equal. auto.
Qed.

Lemma set_key_In {A} (k : string) (v : A) (m : list (string * A)) (kv : string * A) :
  In kv (set_key k v m) -> kv = (k, v) \/ In kv m.
Proof.
  induction m as [|[k0 v0] m IH]; simpl.
  - intros [<-|[]]. now left.
  - destruct (String.eqb k k0); simpl.
    + intros [<-|H]; auto.
    + intros [<-|H]; auto. destruct (IH H); auto.
Qed.

Lemma set_key_NoDup {A} (k : string) (v : A) (m : list (string * A)) :
  NoDup (map fst m) -> NoDup (map fst (set_key k v m)).
Proof.
  intros H. destruct (in_dec string_dec k (map fst m)) as [Hin|Hout].
  - now rewrite set_key_keys.
  - rewrite set_key_fresh by exact Hout. rewrite map_app. simpl.
    apply NoDup_app; [exact H | repeat constructor; intros [] | ].
    intros x Hx [<-|[]]. contradiction.
Qed.

Lemma remove_key_absent {A} (k : string) (m : list (string * A)) :
  ~ In k (map fst m) -> remove_key k m = m.
Proof.
  induction m as [|[k0 v0] m IH]; simpl; intros H; [reflexivity|].
  destruct (String.eqb k k0) eqn:E.
  - apply String.eqb_eq in E. subst k0. exfalso. apply H. now left.
  - f_equal. apply IH. intros Hin. apply H. now right.
Qed.

Lemma fold_set_cleaned (h : string -> jsval) (ks : list string) :
  (forall k, cleanField (h k) = h k) ->
  Forall (fun k => fieldTests k = true) ks ->
  forall acc, cleaned_group acc ->
              cleaned_group (fold_left (fun g k => set_key k (h k) g) ks acc).
Proof.
  intros Hh Hks. induction Hks as [|k ks Hk Hks IH]; intros acc Hacc; simpl.
  - exact Hacc.
  - apply IH. destruct Hacc as [Hnd Hall]. split.
    + now apply set_key_NoDup.
    + rewrite Forall_forall in *. intros kv Hin.
      destruct (set_key_In _ _ _ _ Hin) as [->|Hin']; simpl; auto.
Qed.

Lemma cleanFields_cleaned (fields out : jsval) :
  cleanFields fields = Ok out ->
  exists kvs, out = VObj kvs /\ cleaned_group kvs.
Proof.
  unfold cleanFields. destruct (keys fields) as [ks|]; simpl; [|discriminate].
  intros [= <-]. eexists. split; [reflexivity|].
  apply (fold_set_cleaned (fun k => cleanField (prop fields k))).
  - intros k. apply cleanField_idempotent.
  - rewrite Forall_forall. intros k Hk. apply filter_In in Hk. tauto.
  - split; constructor.
Qed.

Lemma filter_all {A} (f : A -> bool) (l : list A) :
  Forall (fun x => f x = true) l -> filter f l = l.
Proof.
  induction 1 as [|x l Hx _ IH]; simpl; [reflexivity|].
  rewrite Hx. now f_equal.
Qed.

Lemma cleanFields_fixed (kvs : list (string * jsval)) :
  cleaned_group kvs -> cleanFields (VObj kvs) = Ok (VObj kvs).
Proof.
  intros [Hnd Hall]. unfold cleanFields. simpl.
  rewrite filter_all.
  2:{ rewrite Forall_forall in *. intros k Hk. apply in_map_iff in Hk.
      destruct Hk as [kv [<- Hkv]]. apply (Hall kv Hkv). }
  do 2 f_equal.
  assert (G : forall l2 l1,
             kvs = (l1 ++ l2)%list ->
             fold_left (fun g k => set_key k (cleanField (prop (VObj kvs) k)) g)
               (map fst l2) l1 = kvs).
  { induction l2 as [|[k v] l2 IH]; intros l1 Heq; simpl.
    - now rewrite app_nil_r in Heq.
    - assert (Hout : ~ In k (map fst l1)).
      { rewrite Heq, map_app in Hnd. simpl in Hnd.
        apply NoDup_remove_2 in Hnd. intros Hin. apply Hnd.
        apply in_or_app. now left. }
      assert (Hl : lookup k kvs = Some v).
      { rewrite Heq, lookup_app.
        destruct (lookup k l1) eqn:E.
        - apply lookup_Some_In in E. apply (in_map fst) in E. contradiction.
        - simpl. now rewrite String.eqb_refl. }
      rewrite Hl.
      assert (Hv : cleanField v = v).
      { rewrite Forall_forall in Hall.
        apply (Hall (k, v)). rewrite Heq. apply in_or_app. right. now left. }
      rewrite Hv, set_key_fresh by exact Hout.
      apply IH. rewrite Heq, <- app_assoc. reflexivity. }
  apply (G kvs []). reflexivity.
Qed.

Lemma cleanFields_idempotent (fields out : jsval) :
  cleanFields fields = Ok out -> cleanFields out = Ok out.
Proof.
  intros H. destruct (cleanFields_cleaned _ _ H) as [kvs [-> Hc]].
  now apply cleanFields_fixed.
Qed.

(** ** [transform] *)

Lemma set_key_keys_incl {A} (k x : string) (v : A) (m : list (string * A)) :
  In x (map fst (set_key k v m)) -> x = k \/ In x (map fst m).
Proof.
  intros H. apply in_map_iff in H. destruct H as [[k' v'] [<- Hin]].
  destruct (set_key_In _ _ _ _ Hin) as [[= -> ->]|Hin']; simpl; auto.
  right. apply (in_map fst) in Hin'. exact Hin'.
Qed.

Lemma remove_key_keys {A} (k x : string) (m : list (string * A)) :
  In x (map fst (remove_key k m)) -> x <> k /\ In x (map fst m).
Proof.
  induction m as [|[k0 v0] m IH]; simpl; [tauto|].
  destruct (String.eqb k k0) eqn:E.
  - intros H. destruct (IH H). auto.
  - simpl. intros [<-|H].
    + split; [|now left]. intros ->. rewrite String.eqb_refl in E. discriminate.
    + destruct (IH H). auto.
Qed.

Lemma cleanFieldSet_shape (top dk : list (string * jsval)) (fieldSet : string) (r : jsval) :
  lookup "data" top = Some (VObj dk) ->
  cleanFieldSet (VObj top) fieldSet = Ok r ->
  exists c,
    cleaned_group c /\
    r = VObj (set_key "data" (VObj (set_key fieldSet (VObj c) dk)) top).
Proof.
  intros Hd. unfold cleanFieldSet. simpl. rewrite Hd. simpl.
  destruct (lookup fieldSet dk) as [fields|]; simpl.
  - destruct (cleanFields fields) as [out|] eqn:E; simpl; [|discriminate].
    destruct (cleanFields_cleaned _ _ E) as [c [-> Hc]].
    intros [= <-]. eauto.
  - discriminate.
Qed.

Lemma cleanFieldSet_fixed (top dk c : list (string * jsval)) (fieldSet : string) :
  lookup "data" top = Some (VObj dk) ->
  lookup fieldSet dk = Some (VObj c) ->
  cleaned_group c ->
  cleanFieldSet (VObj top) fieldSet = Ok (VObj top).
Proof.
  intros Hd Hf Hc. unfold cleanFieldSet. simpl. rewrite Hd. simpl.
  rewrite Hf, (cleanFields_fixed c Hc). simpl.
  rewrite (set_key_same fieldSet (VObj c) dk Hf).
  rewrite (set_key_same "data" (VObj dk) top Hd). reflexivity.
Qed.

(** After the three [delete]s the payload is an object whose [data] is an
    object, or the cleaning of [attributes] throws. *)
Lemma transform_prefix (r r3 : jsval) (fieldSet : string) (out : jsval) :
  named fieldSet = true ->
  String.eqb fieldSet "length" = false ->
  transform_deletes r = Ok r3 ->
  cleanFieldSet r3 fieldSet = Ok out ->
  exists top dk,
    r3 = VObj top /\
    ~ In "jsonapi" (map fst top) /\
    ~ In "links" (map fst top) /\
    lookup "data" top = Some (VObj dk) /\
    truthy (prop (VObj dk) "links") = false /\
    exists top0 dk0,
      r = VObj top0 /\ lookup "data" top0 = Some (VObj dk0) /\
      forall k, String.eqb k "links" = false -> lookup k dk = lookup k dk0.
Proof.
  unfold transform_deletes. intros Hn Hl H3 H4.
  assert (Hset : forall x, cleanFieldSet x fieldSet = Ok out ->
                           exists dk, prop x "data" = VObj dk).
  { intros x Hx. unfold cleanFieldSet in Hx.
    destruct (prop x "data") as [| | | | | |dk] eqn:E; try (simpl in Hx; discriminate);
      try (exfalso; revert Hx; simpl;
           rewrite ?Hl, ?arr_get_named by exact Hn; simpl; discriminate).
    eauto. }
  destruct r as [| | b | n | s | l | k0]; simpl in H3; try discriminate;
    try (rewrite ?arr_get_named in H3 by reflexivity; simpl in H3;
         injection H3 as <-; destruct (Hset _ H4) as [dk Hdk];
         simpl in Hdk; rewrite ?arr_get_named in Hdk by reflexivity;
         discriminate).
  set (k2 := remove_key "links" (remove_key "jsonapi" k0)) in *.
  assert (Hj : ~ In "jsonapi" (map fst k2)).
  { intros Hin. apply remove_key_keys in Hin. destruct Hin as [_ Hin].
    apply remove_key_keys in Hin. tauto. }
  assert (Hk : ~ In "links" (map fst k2)).
  { intros Hin. apply remove_key_keys in Hin. tauto. }
  destruct (lookup "data" k2) as [d|] eqn:Ed.
  - destruct (truthy d && truthy (prop d "links")) eqn:C.
    + destruct d as [| | b | n | s | l | dk]; simpl in C;
        rewrite ?arr_get_named in C by reflexivity; simpl in C;
        rewrite ?andb_false_r in C; try discriminate.
      simpl in H3. injection H3 as <-.
      exists (set_key "data" (VObj (remove_key "links" dk)) k2),
        (remove_key "links" dk).
      split; [reflexivity|].
      split; [|split; [|split; [|split]]].
      * intros Hin. apply set_key_keys_incl in Hin.
        destruct Hin as [Hin|Hin]; [discriminate | tauto].
      * intros Hin. apply set_key_keys_incl in Hin.
        destruct Hin as [Hin|Hin]; [discriminate | tauto].
      * rewrite lookup_set_key. reflexivity.
      * simpl. rewrite lookup_remove_key. reflexivity.
      * exists k0, dk. split; [reflexivity|]. split.
        -- rewrite <- Ed. unfold k2. now rewrite !lookup_remove_key.
        -- intros k Hk'. rewrite lookup_remove_key, Hk'. reflexivity.
    + injection H3 as <-.
      destruct (Hset _ H4) as [dk Hdk]. simpl in Hdk. rewrite Ed in Hdk.
      subst d. exists k2, dk.
      split; [reflexivity|].
      split; [|split; [|split; [|split]]]; auto.
      exists k0, dk. split; [reflexivity|]. split; [|reflexivity].
        rewrite <- Ed. unfold k2. now rewrite !lookup_remove_key.
  - simpl in H3. injection H3 as <-.
    destruct (Hset _ H4) as [dk Hdk]. simpl in Hdk. rewrite Ed in Hdk.
    discriminate.
Qed.

Lemma transform_steps (r out : jsval) :
  transform r = Ok out ->
  exists r3 r4,
    transform_deletes r = Ok r3 /\
    cleanFieldSet r3 "attributes" = Ok r4 /\
    cleanFieldSet r4 "relationships" = Ok out.
Proof.
  unfold transform, transform_deletes. intros H.
  destruct (delete r "jsonapi") as [r1|]; simpl in *; [|discriminate].
  destruct (delete r1 "links") as [r2|]; simpl in *; [|discriminate].
  destruct (if truthy (prop r2 "data") && truthy (prop (prop r2 "data") "links")
            then d <- delete (prop r2 "data") "links" ;; Ok (assign1 r2 "data" d)
            else Ok r2) as [r3|]; simpl in *; [|discriminate].
  destruct (cleanFieldSet r3 "attributes") as [r4|] eqn:H4; simpl in *;
    [|discriminate].
  eauto.
Qed.

Lemma transform_transformed (r out : jsval) :
  transform r = Ok out -> transformed out.
Proof.
  intros H. destruct (transform_steps r out H) as [r3 [r4 [H3 [H4 H']]]].
  destruct (transform_prefix r r3 "attributes" r4 eq_refl eq_refl H3 H4)
    as [top [dk [-> [Hj [Hk [Hd [Hl _]]]]]]].
  destruct (cleanFieldSet_shape top dk "attributes" r4 Hd H4) as [ca [Hca ->]].
  assert (Hd4 : lookup "data"
                  (set_key "data" (VObj (set_key "attributes" (VObj ca) dk)) top)
                = Some (VObj (set_key "attributes" (VObj ca) dk))).
  { rewrite lookup_set_key. reflexivity. }
  destruct (cleanFieldSet_shape _ _ "relationships" out Hd4 H') as [cr [Hcr ->]].
  exists (set_key "data"
            (VObj (set_key "relationships" (VObj cr)
                     (set_key "attributes" (VObj ca) dk)))
            (set_key "data" (VObj (set_key "attributes" (VObj ca) dk)) top)),
    (set_key "relationships" (VObj cr) (set_key "attributes" (VObj ca) dk)),
    ca, cr.
  split; [reflexivity|]. repeat split; try assumption.
  - intros Hin. apply set_key_keys_incl in Hin.
    destruct Hin as [Hin|Hin]; [discriminate|].
    apply set_key_keys_incl in Hin. destruct Hin; [discriminate | tauto].
  - intros Hin. apply set_key_keys_incl in Hin.
    destruct Hin as [Hin|Hin]; [discriminate|].
    apply set_key_keys_incl in Hin. destruct Hin; [discriminate | tauto].
  - rewrite lookup_set_key. reflexivity.
  - simpl in *. rewrite !lookup_set_key. eqb_literals. exact Hl.
  - rewrite !lookup_set_key. reflexivity.
  - rewrite !lookup_set_key. reflexivity.
  - apply Hca.
  - apply Hca.
  - apply Hcr.
  - apply Hcr.
Qed.

Lemma transformed_fixed (r : jsval) : transformed r -> transform r = Ok r.
Proof.
  intros [top [dk [ca [cr [-> [Hj [Hk [Hd [Hl [Ha [Hr [Hca Hcr]]]]]]]]]]]].
  unfold transform. simpl.
  rewrite (remove_key_absent "jsonapi" top Hj).
  rewrite (remove_key_absent "links" top Hk).
  rewrite Hd. simpl in Hl. simpl. rewrite Hl. simpl.
  rewrite (cleanFieldSet_fixed top dk ca "attributes" Hd Ha Hca). simpl.
  apply (cleanFieldSet_fixed top dk cr "relationships" Hd Hr Hcr).
Qed.

(** C7.  The default transform is idempotent: applied to what it returned,
    it returns the same payload. *)
Theorem transform_idempotent (r out : jsval) :
  transform r = Ok out -> transform out = Ok out.
Proof.
  intros H. apply transformed_fixed. exact (transform_transformed r out H).
Qed.

Lemma transform_idempotent_witness :
  transform tagged_article = Ok tagged_article_clean /\
  transform tagged_article_clean = Ok tagged_article_clean.
Proof.
  split; [reflexivity|].
  apply (transform_idempotent tagged_article). reflexivity.
Defined.

(** [transform] accepts a payload only if it is an object whose [data] is an
    object that has both [attributes] and [relationships]. *)
Lemma transform_needs_field_sets (r out : jsval) :
  transform r = Ok out ->
  exists top dk a rel,
    r = VObj top /\
    lookup "data" top = Some (VObj dk) /\
    lookup "attributes" dk = Some a /\
    lookup "relationships" dk = Some rel.
Proof.
  intros H. destruct (transform_steps r out H) as [r3 [r4 [H3 [H4 H']]]].
  destruct (transform_prefix r r3 "attributes" r4 eq_refl eq_refl H3 H4)
    as [top [dk [-> [_ [_ [Hd [_ [top0 [dk0 [-> [Hd0 Hsame]]]]]]]]]]].
  destruct (cleanFieldSet_shape top dk "attributes" r4 Hd H4) as [ca [_ ->]].
  exists top0, dk0.
  assert (Ha : exists a, lookup "attributes" dk = Some a).
  { unfold cleanFieldSet in H4. simpl in H4. rewrite Hd in H4. simpl in H4.
    destruct (lookup "attributes" dk); [eauto | discriminate]. }
  assert (Hr : exists rel, lookup "relationships" dk = Some rel).
  { unfold cleanFieldSet in H'. simpl in H'.
    rewrite lookup_set_key in H'. simpl in H'.
    rewrite lookup_set_key in H'. simpl in H'.
    destruct (lookup "relationships" dk); [eauto | discriminate]. }
  destruct Ha as [a Ha], Hr as [rel Hr].
  exists a, rel. repeat split; auto.
  - rewrite <- Hsame by reflexivity. exact Ha.
  - rewrite <- Hsame by reflexivity. exact Hr.
Qed.

(** Every payload whose resource has no [attributes] or no [relationships]
    member, a collection among them, is refused by the constructor. *)
Lemma construct_needs_field_sets (payload : jsval) (e : Entity) :
  construct payload = Ok e ->
  exists top dk a rel,
    payload = VObj top /\
    lookup "data" top = Some (VObj dk) /\
    lookup "attributes" dk = Some a /\
    lookup "relationships" dk = Some rel.
Proof.
  unfold construct. destruct (transform payload) as [r|] eqn:H; [|discriminate].
  intros _. exact (transform_needs_field_sets payload r H).
Qed.

(** A name the [id] getter accepts is one [cleanFields] removes. *)
Lemma id_key_is_cleaned_away (k : string) :
  re_is_id k = true -> fieldTests k = false.
Proof.
  unfold re_is_id, opt_letter_id. intros H.
  assert (Hp : forall p s rest, strip_prefix p s = Some rest -> s = p ++ rest).
  { induction p as [|a p IH]; intros s rest; simpl.
    - now intros [= ->].
    - destruct s as [|b s]; [discriminate|].
      destruct (Ascii.eqb a b) eqn:E; [|discriminate].
      apply Ascii.eqb_eq in E. subst b. intros Hs. f_equal. auto. }
  destruct (strip_prefix "drupal_internal__" k) as [rest|] eqn:E; [|discriminate].
  apply Hp in E. subst k.
  apply orb_true_iff in H. destruct H as [H|H].
  - apply String.eqb_eq in H. subst rest. reflexivity.
  - destruct rest as [|c rest]; [discriminate|].
    apply andb_true_iff in H. destruct H as [_ H].
    apply String.eqb_eq in H. subst rest. reflexivity.
Qed.

(** What the constructor leaves in a fresh entity. *)
Lemma constructed (payload : jsval) (e : Entity) :
  construct payload = Ok e ->
  transformed (res e) /\
  (exists c, attrs e = VObj c /\ cleaned_group c) /\
  isCollection e = false /\
  relationshipGroups e = ["relationships"] /\
  _fieldMap e = [] /\
  _id e = VNull.
Proof.
  unfold construct. destruct (transform payload) as [r|] eqn:H; [|discriminate].
  simpl. pose proof (transform_transformed payload r H) as Ht.
  destruct Ht as [top [dk [ca [cr [-> [Hj [Hk [Hd [Hl [Ha [Hr [Hca Hcr]]]]]]]]]]]].
  unfold getData. simpl. rewrite Hd. simpl. rewrite Ha.
  assert (Ht : transformed (VObj top)).
  { exists top, dk, ca, cr. repeat split; try assumption; apply Hca || apply Hcr. }
  destruct (truthy match lookup "type" dk with Some v => v | None => VUndef end
            && truthy match lookup "id" dk with Some v => v | None => VUndef end).
  - simpl. intros [= <-]. simpl. repeat split; eauto.
  - destruct (truthy match lookup "type" top with Some v => v | None => VUndef end
              && truthy match lookup "id" top with Some v => v | None => VUndef end).
    + simpl. intros [= <-]. simpl. repeat split; eauto.
    + simpl. intros [= <-]. simpl. repeat split; eauto.
Qed.

(** With the default transform the [id] getter finds no attribute to read,
    whatever the payload. *)
Lemma constructed_id_is_null (payload : jsval) (e : Entity) :
  construct payload = Ok e -> fst (id e) = Ok VNull.
Proof.
  intros H. destruct (constructed payload e H)
    as [_ [[c [Ha [_ Hc]]] [_ [_ [_ Hid]]]]].
  unfold id, bindM, this, lift, ret. rewrite Hid, Ha. simpl.
  assert (Hf : find re_is_id (map fst c) = None).
  { clear Ha. induction Hc as [|[k v] c [Hk _] _ IH]; simpl; [reflexivity|].
    destruct (re_is_id k) eqn:E; [|exact IH].
    apply id_key_is_cleaned_away in E. simpl in Hk. congruence. }
  rewrite Hf. reflexivity.
Qed.

(** ** Value resolution *)

(** C2.  When the field value unwraps to a relationship reference of kind
    [paragraph] and bundle [from_library], [getFieldValue] asks the
    collaborator's [getRelationship] for the reference, reads
    [field_reusable_paragraph] on what comes back and [paragraphs] on that,
    and returns this last value. *)
Theorem library_paragraph_double_hop
    (api : Api) (depth : nat) (structure : jsval) (index : nat)
    (v : jsval) (t : string) (rest : list string) :
  unwrap structure index = v ->
  isRelationship v = Ok true ->
  prop v "type" = VStr t ->
  split t = "paragraph" :: "from_library" :: rest ->
  getFieldValue api (value api depth) structure index =
    (r <- getRelationship api v ;;
     r <- call_value (value api depth) r "field_reusable_paragraph" ;;
     call_value (value api depth) r "paragraphs").
Proof.
  intros Hu Hrel Ht Hs. unfold getFieldValue. rewrite Hu, Hrel. simpl.
  assert (Hg : get v "type" = Ok (VStr t)).
  { destruct v; simpl in Hrel; try discriminate. simpl in Ht.
    unfold get. simpl. now rewrite Ht. }
  rewrite Hg. simpl. rewrite Hs. reflexivity.
Qed.

Lemma library_paragraph_double_hop_witness :
  getFieldValue library_api (value library_api 1)
    (VObj [("data", VArr [library_reference])]) 0
  = Ok (Instance (built text_paragraph)) /\
  getRelationship library_api library_reference
  = Ok (Instance (built library_paragraph)).
Proof.
  split; [|reflexivity].
  rewrite (library_paragraph_double_hop library_api 1
             (VObj [("data", VArr [library_reference])]) 0
             library_reference "paragraph--from_library" []);
    reflexivity.
Defined.

(** ** Relationship extraction *)

Section Extraction.
Variable api : Api.

(** The collaborator's keys are ordinary property names. *)
Hypothesis endpoint_plain : forall l, endpoint api l <> "__proto__".

Lemma collects_ext (R R' : jsval -> Prop) (found : list (string * Lookup.t)) :
  (forall r, R r <-> R' r) -> collects api R found -> collects api R' found.
Proof.
  intros He [Hnd [Hs Hc]]. split; [exact Hnd|]. split.
  - intros key l Hin. destruct (Hs key l Hin) as [r [Hr H]].
    exists r. split; [now apply He | exact H].
  - intros r Hr. apply Hc. now apply He.
Qed.

Lemma set_key_keeps_key {A} (k k' : string) (v : A) (m : list (string * A)) :
  In k (map fst m) -> In k (map fst (set_key k' v m)).
Proof.
  intros H. destruct (in_dec string_dec k' (map fst m)) as [Hin|Hout].
  - now rewrite set_key_keys.
  - rewrite set_key_fresh by exact Hout. rewrite map_app.
    apply in_or_app. now left.
Qed.

Lemma set_key_has_key {A} (k : string) (v : A) (m : list (string * A)) :
  In k (map fst (set_key k v m)).
Proof.
  destruct (in_dec string_dec k (map fst m)) as [Hin|Hout].
  - now rewrite set_key_keys.
  - rewrite set_key_fresh by exact Hout. rewrite map_app.
    apply in_or_app. right. now left.
Qed.

(** [assign] with ordinary keys sets every property of [found]. *)
Lemma assign_plain {A} (found set : list (string * A)) :
  (forall kv, In kv found -> fst kv <> "__proto__") ->
  assign set found =
  fold_left (fun acc kv => set_key (fst kv) (snd kv) acc) found set.
Proof.
  unfold assign. revert set.
  induction found as [|kv found IH]; intros set Hk; simpl; [reflexivity|].
  destruct (String.eqb (fst kv) "__proto__") eqn:E.
  - apply String.eqb_eq in E. exfalso. apply (Hk kv); [now left | exact E].
  - apply IH. intros kv' Hin. apply Hk. now right.
Qed.

Lemma fold_set_NoDup {A} (found set : list (string * A)) :
  NoDup (map fst set) ->
  NoDup (map fst (fold_left (fun acc kv => set_key (fst kv) (snd kv) acc) found set)).
Proof.
  revert set. induction found as [|kv found IH]; intros set H; simpl; [exact H|].
  apply IH. now apply set_key_NoDup.
Qed.

Lemma fold_set_In {A} (found set : list (string * A)) (kv : string * A) :
  In kv (fold_left (fun acc kv => set_key (fst kv) (snd kv) acc) found set) ->
  In kv found \/ In kv set.
Proof.
  revert set. induction found as [|kv' found IH]; intros set H; simpl in *; [auto|].
  destruct (IH _ H) as [Hf|Hs]; [auto|].
  destruct (set_key_In _ _ _ _ Hs) as [->|Hs']; [|auto].
  left. left. now destruct kv'.
Qed.

Lemma fold_set_keys {A} (found set : list (string * A)) (k : string) :
  In k (map fst found) \/ In k (map fst set) ->
  In k (map fst (fold_left (fun acc kv => set_key (fst kv) (snd kv) acc) found set)).
Proof.
  revert set. induction found as [|kv found IH]; intros set H; simpl in *.
  - tauto.
  - apply IH. destruct H as [[<-|H]|H]; auto.
    + right. apply set_key_has_key.
    + right. now apply set_key_keeps_key.
Qed.

Lemma collects_assign (R1 R2 : jsval -> Prop) (set found : list (string * Lookup.t)) :
  collects api R1 set -> collects api R2 found ->
  collects api (fun r => R1 r \/ R2 r) (assign set found).
Proof.
  intros [Hnd1 [Hs1 Hc1]] [Hnd2 [Hs2 Hc2]].
  rewrite assign_plain.
  2:{ intros [key l] Hin. simpl. destruct (Hs2 key l Hin) as [r [_ [_ <-]]].
      apply endpoint_plain. }
  split; [now apply fold_set_NoDup|]. split.
  - intros key l Hin. destruct (fold_set_In _ _ _ Hin) as [H|H].
    + destruct (Hs2 key l H) as [r [Hr Hl]]. exists r. auto.
    + destruct (Hs1 key l H) as [r [Hr Hl]]. exists r. auto.
  - intros r [Hr|Hr].
    + destruct (Hc1 r Hr) as [l [Hl Hin]]. exists l. split; [exact Hl|].
      apply fold_set_keys. now right.
    + destruct (Hc2 r Hr) as [l [Hl Hin]]. exists l. split; [exact Hl|].
      apply fold_set_keys. now left.
Qed.

Lemma parse_unfold (items : jsval) :
  parseRelationshipLookups api items =
  (rel <- isRelationship items ;;
   if rel : bool
   then l <- dataToLookup items ;; Ok [(endpoint api l, l)]
   else match items with
        | VArr l => fold_left (gather api (fun x => x)) l (Ok [])
        | VObj kvs => fold_left (gather api snd) kvs (Ok [])
        | _ => Ok []
        end).
Proof.
  destruct items; try reflexivity.
  cbn [parseRelationshipLookups].
  destruct (isRelationship (VObj props)) as [[]|]; cbn [bind]; try reflexivity.
  generalize (@Ok (list (string * Lookup.t)) []).
  induction props as [|[k v] l IH]; intros acc; cbn [fold_left]; [reflexivity|].
  apply IH.
Qed.

Lemma fold_gather_Err {A} (item : A -> jsval) (l : list A) (e : error) :
  fold_left (gather api item) l (Err e) = Err e.
Proof. induction l as [|a l IH]; simpl; [reflexivity | exact IH]. Qed.

Lemma fold_gather_collects {A} (item : A -> jsval) (l : list A) :
  Forall (fun a => forall found,
              parseRelationshipLookups api (item a) = Ok found ->
              collects api (Reach (item a)) found) l ->
  forall (R : jsval -> Prop) acc found,
    collects api R acc ->
    fold_left (gather api item) l (Ok acc) = Ok found ->
    collects api (fun r => R r \/ exists a, In a l /\ Reach (item a) r) found.
Proof.
  induction 1 as [|a l Ha _ IH]; intros R acc found Hacc Hf; simpl in Hf.
  - injection Hf as <-. revert Hacc. apply collects_ext.
    intros r. split; [auto|]. intros [H|[a [[] _]]]. exact H.
  - destruct (parseRelationshipLookups api (item a)) as [fa|e] eqn:Ea;
      simpl in Hf; [|rewrite fold_gather_Err in Hf; discriminate].
    pose proof (collects_assign R (Reach (item a)) acc fa Hacc (Ha fa eq_refl))
      as Hstep.
    specialize (IH _ _ _ Hstep Hf).
    revert IH. apply collects_ext. intros r. split.
    + intros [[H|H]|[a' [Hin H]]]; [auto | right | right].
      * exists a. split; [now left | exact H].
      * exists a'. split; [now right | exact H].
    + intros [H|[a' [[<-|Hin] H]]]; [auto | auto |].
      right. exists a'. auto.
Qed.

Lemma Reach_stops (v r : jsval) :
  isRelationship v = Ok true -> Reach v r -> r = v.
Proof.
  intros Hrel H. inversion H; subst; [reflexivity | congruence | congruence].
Qed.

Lemma Reach_not_container (v r : jsval) :
  isRelationship v = Ok false ->
  (forall l, v <> VArr l) -> (forall kvs, v <> VObj kvs) ->
  ~ Reach v r.
Proof.
  intros Hrel Ha Ho H. inversion H; subst.
  - congruence.
  - exact (Ha _ eq_refl).
  - exact (Ho _ eq_refl).
Qed.

(** Whatever [parseRelationshipLookups] returns holds exactly the
    references reachable from its argument, one entry per endpoint. *)
Lemma parse_collects (items : jsval) :
  forall found,
    parseRelationshipLookups api items = Ok found ->
    collects api (Reach items) found.
Proof.
  induction items as [| | b | n | s | l IH | kvs IH] using jsval_nested_ind;
    intros found H; rewrite parse_unfold in H;
    destruct (isRelationship _) as [[]|] eqn:Hrel; simpl in H;
    try discriminate.
  (* the scalars: nothing is collected and nothing is reachable *)
  1-5: injection H as <-; split; [constructor|]; split;
    [intros key l []|];
    intros r Hr; exfalso; revert Hr;
    apply Reach_not_container; (exact Hrel || discriminate).
  - (* an array *)
    pose proof (fold_gather_collects (fun x => x) l IH (fun _ => False) [] found)
      as Hc.
    assert (H0 : collects api (fun _ => False) []).
    { split; [constructor|]. split; [intros key k []|intros r []]. }
    specialize (Hc H0 H). revert Hc. apply collects_ext.
    intros r. split.
    + intros [[]|[x [Hin Hr]]]. now apply (Reach_element l x r).
    + intros Hr. right. inversion Hr; subst; [congruence|]. eauto.
  - (* an object that is a reference *)
    destruct (dataToLookup (VObj kvs)) as [lk|] eqn:El; simpl in H;
      [|discriminate].
    injection H as <-. split; [|split].
    + simpl. constructor; [intros []|constructor].
    + intros key l [[= <- <-]|[]]. exists (VObj kvs).
      split; [now constructor | auto].
    + intros r Hr. apply (Reach_stops _ _ Hrel) in Hr. subst r.
      exists lk. split; [exact El | now left].
  - (* an object that is not a reference *)
    pose proof (fold_gather_collects snd kvs IH (fun _ => False) [] found)
      as Hc.
    assert (H0 : collects api (fun _ => False) []).
    { split; [constructor|]. split; [intros key k []|intros r []]. }
    specialize (Hc H0 H). revert Hc. apply collects_ext.
    intros r. split.
    + intros [[]|[[k x] [Hin Hr]]]. now apply (Reach_member kvs k x r).
    + intros Hr. right. inversion Hr; subst; [congruence|].
      exists (k, x). auto.
Qed.

Lemma fold_gather_total {A} (item : A -> jsval) (l : list A) :
  Forall (fun a => exists found,
              parseRelationshipLookups api (item a) = Ok found) l ->
  forall acc, exists found, fold_left (gather api item) l (Ok acc) = Ok found.
Proof.
  induction 1 as [|a l [fa Ha] _ IH]; intros acc; simpl.
  - eauto.
  - rewrite Ha. simpl. apply IH.
Qed.

(** On a structure whose [type] members are strings
    [parseRelationshipLookups] returns. *)
Lemma parse_total (items : jsval) :
  typed_by_strings items = true ->
  exists found, parseRelationshipLookups api items = Ok found.
Proof.
  induction items as [| | b | n | s | l IH | kvs IH] using jsval_nested_ind;
    intros Ht; rewrite parse_unfold; try (simpl; eauto; fail).
  - simpl. apply fold_gather_total. simpl in Ht.
    rewrite forallb_forall in Ht. rewrite Forall_forall in *.
    intros x Hx. auto.
  - simpl in Ht. apply andb_true_iff in Ht. destruct Ht as [Hty Hch].
    assert (Hfold : exists found, fold_left (gather api snd) kvs (Ok []) = Ok found).
    { apply fold_gather_total. rewrite forallb_forall in Hch.
      rewrite Forall_forall in *. intros [k x] Hx. simpl.
      apply (IH (k, x) Hx). apply (Hch (k, x) Hx). }
    unfold isRelationship, dataToLookup, get. simpl.
    destruct (lookup "type" kvs) as [[| | | | s | |]|]; try discriminate;
      simpl; try exact Hfold.
    destruct (negb (String.eqb s "") && _); simpl; [|exact Hfold].
    destruct (Z.ltb 1 (indexOf s)); simpl; [eauto | exact Hfold].
Qed.

(** C4.  [parseRelationshipLookups] returns on every structure whose
    [type] members are strings, and what it returns is a mapping with one
    entry per endpoint that holds exactly the references reachable by
    descending through array elements and object members without going
    past a reference: every entry is the lookup of such a reference under
    its endpoint, and every such reference has its endpoint among the
    keys. *)
Theorem parseRelationshipLookups_exact (items : jsval) :
  (typed_by_strings items = true ->
   exists found, parseRelationshipLookups api items = Ok found) /\
  (forall found,
      parseRelationshipLookups api items = Ok found ->
      NoDup (map fst found) /\
      (forall key l,
          In (key, l) found ->
          exists r, Reach items r /\ dataToLookup r = Ok l /\ endpoint api l = key) /\
      (forall r,
          Reach items r ->
          exists l, dataToLookup r = Ok l /\ In (endpoint api l) (map fst found)) /\
      (forall r r', Reach items r -> Reach r r' -> r' = r)).
Proof.
  split; [apply parse_total|].
  intros found H. destruct (parse_collects items found H) as [Hnd [Hs Hc]].
  repeat split; auto.
  intros r r' Hr Hr'. apply Reach_stops; [|exact Hr'].
  clear - Hr. induction Hr; auto.
Qed.
End Extraction.

Lemma has_slash_app (a b : string) : has_slash (a ++ String "/" b) = true.
Proof.
  induction a as [|c a IH]; simpl; [reflexivity|].
  rewrite IH. apply orb_true_r.
Qed.

Lemma path_endpoint_plain (l : Lookup.t) : path_endpoint l <> "__proto__".
Proof.
  unfold path_endpoint. intros H.
  pose proof (has_slash_app (to_string (Lookup.entity l))
                (to_string (Lookup.bundle l) ++ "/" ++ to_string (Lookup.uuid l)))
    as Hs.
  change (has_slash (path_endpoint l) = true) in Hs.
  unfold path_endpoint in Hs. rewrite H in Hs. discriminate.
Qed.

Lemma parseRelationshipLookups_exact_witness :
  let found :=
    [("taxonomy_term/tags/aaaa",
      Lookup.make (VStr "taxonomy_term") (VStr "tags") (VStr "aaaa"));
     ("taxonomy_term/tags/bbbb",
      Lookup.make (VStr "taxonomy_term") (VStr "tags") (VStr "bbbb"));
     ("file/file/f11e",
      Lookup.make (VStr "file") (VStr "file") (VStr "f11e"))] in
  parseRelationshipLookups library_api nested_references = Ok found /\
  NoDup (map fst found) /\
  (forall key l,
      In (key, l) found ->
      exists r, Reach nested_references r /\ dataToLookup r = Ok l
                /\ endpoint library_api l = key) /\
  (forall r,
      Reach nested_references r ->
      exists l, dataToLookup r = Ok l /\ In (endpoint library_api l) (map fst found)) /\
  (forall r r', Reach nested_references r -> Reach r r' -> r' = r).
Proof.
  intros found.
  destruct (parseRelationshipLookups_exact library_api path_endpoint_plain
              nested_references) as [Htotal Hexact].
  split; [reflexivity|].
  apply Hexact. reflexivity.
Defined.

(** ** Traversal *)

Lemma filter_keeps_distinct {A B} (keep : A -> bool) (key : A -> B) (xs : list A)
    (Hxs : NoDup (map key xs)) :
  NoDup (map key (filter keep xs)).
Proof.
  induction xs as [|x xs IH]; simpl; [constructor|].
  simpl in Hxs. inversion Hxs as [|y ys Hout Hnd]; subst.
  destruct (keep x); simpl; [|auto].
  constructor; [|auto].
  intros Hin. apply Hout. apply in_map_iff in Hin.
  destruct Hin as [z [Hz Hin]]. apply filter_In in Hin.
  apply in_map_iff. exists z. tauto.
Qed.

Lemma Promise_all_Fulfilled (ps : list promise) :
  Promise_all ps = Fulfilled <-> forall p, In p ps -> p = Fulfilled.
Proof.
  unfold Promise_all. split.
  - intros H.
    destruct (existsb _ ps); [discriminate|].
    destruct (forallb _ ps) eqn:F; [|discriminate].
    rewrite forallb_forall in F. intros p Hp. specialize (F p Hp).
    destruct p; try discriminate. reflexivity.
  - intros H.
    destruct (existsb _ ps) eqn:E.
    + apply existsb_exists in E. destruct E as [p [Hp Hr]].
      rewrite (H p Hp) in Hr. discriminate.
    + destruct (forallb _ ps) eqn:F; [reflexivity|].
      assert (Ft : forallb (fun p => match p with Fulfilled => true | _ => false end)
                     ps = true)
        by (apply forallb_forall; intros p Hp; now rewrite (H p Hp)).
      congruence.
Qed.

Lemma Promise_all_Rejected (ps : list promise) :
  Promise_all ps = Rejected <-> In Rejected ps.
Proof.
  unfold Promise_all.
  destruct (existsb (fun p => match p with Rejected => true | _ => false end) ps)
    eqn:E.
  - split; [intros _|reflexivity].
    apply existsb_exists in E. destruct E as [p [Hp Hr]].
    destruct p; try discriminate. exact Hp.
  - split.
    + destruct (forallb _ ps); discriminate.
    + intros Hin. exfalso.
      assert (Ht : existsb (fun p => match p with Rejected => true | _ => false end) ps
                   = true)
        by (apply existsb_exists; exists Rejected; auto).
      congruence.
Qed.

Section Traversal.
Variable api : Api.
Hypothesis endpoint_plain : forall l, endpoint api l <> "__proto__".

(** The requests of one group, given what its matching fields hold. *)
Lemma loadRelationshipGroup_requests
    (e : Entity) (group : string) (depth : Z)
    (g : jsval) (names : list string) (found : list (string * Lookup.t)) :
  isCollection e = false ->
  get (data e) group = Ok g ->
  relationshipFieldNames e group = Ok names ->
  parseRelationshipLookups api (VArr (map (fun k => prop g k) names)) = Ok found ->
  loadRelationshipGroup api e group depth =
    Ok (map (request_for depth) (filter (untraversed api) (map snd found))).
Proof.
  intros Hc Hg Hn Hp. unfold loadRelationshipGroup. rewrite Hg, Hc.
  cbn [bind negb andb].
  destruct (truthy g) eqn:Tg.
  - rewrite Hn. cbn [bind]. rewrite Hp. reflexivity.
  - unfold relationshipFieldNames in Hn. rewrite Hg in Hn. simpl in Hn.
    rewrite Tg in Hn. simpl in Hn. injection Hn as <-.
    simpl in Hp. injection Hp as <-. reflexivity.
Qed.

(** C3, as the code has it.  [loadRelationships(depth)] on an entity that
    is not a collection collects api the lookups reachable from the values of
    the fields of the relationship group whose names pass
    [relationshipTests], one per endpoint; it leaves out exactly those the
    collaborator reports as traversed and makes one [getEntity] call, with
    [depth + 1], for each of the others.  Its promise is the
    [Promise.all] of these calls: fulfilled when all of them are, rejected
    as soon as one of them is. *)
Theorem loadRelationships_requests_exact
    (e : Entity) (depth : Z)
    (g : jsval) (names : list string) (found : list (string * Lookup.t)) :
  isCollection e = false ->
  relationshipGroups e = ["relationships"] ->
  get (data e) "relationships" = Ok g ->
  relationshipFieldNames e "relationships" = Ok names ->
  parseRelationshipLookups api (VArr (map (fun k => prop g k) names)) = Ok found ->
  exists rs,
    loadRelationships_requests api e depth = Ok rs /\
    (forall k, In k names <->
               ((exists ks, keys (if truthy g then g else VArr []) = Ok ks /\ In k ks)
                /\ relationshipTests k = true)) /\
    (forall key l,
        In (key, l) found ->
        exists k r, In k names /\ Reach (prop g k) r
                    /\ dataToLookup r = Ok l /\ endpoint api l = key) /\
    (forall k r,
        In k names -> Reach (prop g k) r ->
        exists l, dataToLookup r = Ok l /\ In (endpoint api l) (map fst found)) /\
    (forall rq,
        In rq rs <->
        (at_depth rq = (depth + 1)%Z /\
         hasBeenTraversed api (lookup_key rq) = false /\
         In (endpoint api (lookup_key rq), lookup_key rq) found)) /\
    NoDup (map (fun rq => endpoint api (lookup_key rq)) rs) /\
    (loadRelationships api e depth = Fulfilled <->
     forall rq, In rq rs -> getEntity api (lookup_key rq) (at_depth rq) = Fulfilled) /\
    (loadRelationships api e depth = Rejected <->
     exists rq, In rq rs /\ getEntity api (lookup_key rq) (at_depth rq) = Rejected).
Proof.
  intros Hc Hgroups Hg Hn Hp.
  pose proof (loadRelationshipGroup_requests e "relationships" depth g names found
                Hc Hg Hn Hp) as Hgroup.
  assert (Hrs : loadRelationships_requests api e depth =
                Ok (map (request_for depth) (filter (untraversed api) (map snd found)))).
  { unfold loadRelationships_requests. rewrite Hgroups. simpl.
    rewrite Hgroup. reflexivity. }
  destruct (parse_collects api endpoint_plain _ found Hp) as [Hnd [Hs Hcm]].
  assert (Hkey : forall key l, In (key, l) found -> endpoint api l = key).
  { intros key l Hin. destruct (Hs key l Hin) as [r [_ [_ H]]]. exact H. }
  assert (Harr : forall r,
             Reach (VArr (map (fun k => prop g k) names)) r <->
             exists k, In k names /\ Reach (prop g k) r).
  { intros r. split.
    - intros H. inversion H; subst; [discriminate|].
      apply in_map_iff in H2. destruct H2 as [k [<- Hk]]. eauto.
    - intros [k [Hk Hr]].
      apply (Reach_element _ (prop g k) r); [reflexivity | | exact Hr].
      apply in_map_iff. eauto. }
  eexists. split; [exact Hrs|].
  split; [|split; [|split; [|split; [|split; [|split]]]]].
  - intros k. unfold relationshipFieldNames in Hn. rewrite Hg in Hn.
    simpl in Hn.
    destruct (keys (if truthy g then g else VArr [])) as [ks|]; simpl in Hn;
      [|discriminate].
    injection Hn as <-. rewrite filter_In. split.
    + intros [Hin Ht]. split; [exists ks; auto | exact Ht].
    + intros [[ks' [[= <-] Hin]] Ht]. auto.
  - intros key l Hin. destruct (Hs key l Hin) as [r [Hr [Hl He]]].
    apply Harr in Hr. destruct Hr as [k [Hk Hr]]. exists k, r. auto.
  - intros k r Hk Hr. apply Hcm. apply Harr. eauto.
  - intros rq. rewrite in_map_iff. split.
    + intros [l [<- Hin]]. apply filter_In in Hin. destruct Hin as [Hin Hu].
      apply in_map_iff in Hin. destruct Hin as [[key l'] [Heq Hin]].
      simpl in Heq. subst l'. simpl.
      split; [reflexivity|]. split.
      * unfold untraversed in Hu. now apply negb_true_iff in Hu.
      * now rewrite (Hkey key l Hin).
    + intros [Hd [Ht Hin]]. exists (lookup_key rq). split.
      * destruct rq as [l d]. simpl in *. subst d. reflexivity.
      * apply filter_In. split.
        -- apply in_map_iff. eexists. split; [|exact Hin]. reflexivity.
        -- unfold untraversed. now rewrite Ht.
  - rewrite map_map. simpl.
    apply (filter_keeps_distinct (untraversed api) (endpoint api)).
    replace (map (endpoint api) (map snd found)) with (map fst found);
      [exact Hnd|].
    rewrite map_map. apply map_ext_in. intros [key l] Hin. simpl.
    symmetry. now apply Hkey.
  - unfold loadRelationships. rewrite Hrs. rewrite Promise_all_Fulfilled.
    split.
    + intros H rq Hin. apply H. apply in_map_iff. eauto.
    + intros H p Hin. apply in_map_iff in Hin.
      destruct Hin as [rq [<- Hin]]. auto.
  - unfold loadRelationships. rewrite Hrs. rewrite Promise_all_Rejected.
    rewrite in_map_iff. split.
    + intros [rq [Heq Hin]]. eauto.
    + intros [rq [Hin Heq]]. eauto.
Qed.
End Traversal.

Lemma loadRelationships_requests_exact_witness :
  exists rs,
    loadRelationships_requests library_api (built tagged_article) 0 = Ok rs /\
    rs = [ {| lookup_key := Lookup.make (VStr "taxonomy_term") (VStr "tags") (VStr "aaaa");
              at_depth := 1 |};
           {| lookup_key := Lookup.make (VStr "taxonomy_term") (VStr "tags") (VStr "bbbb");
              at_depth := 1 |} ] /\
    NoDup (map (fun rq => endpoint library_api (lookup_key rq)) rs) /\
    (loadRelationships library_api (built tagged_article) 0 = Rejected <->
     exists rq, In rq rs
                /\ getEntity library_api (lookup_key rq) (at_depth rq) = Rejected).
Proof.
  destruct (loadRelationships_requests_exact library_api path_endpoint_plain
              (built tagged_article) 0
              (prop (data (built tagged_article)) "relationships")
              ["field_tags"]
              [("taxonomy_term/tags/aaaa",
                Lookup.make (VStr "taxonomy_term") (VStr "tags") (VStr "aaaa"));
               ("taxonomy_term/tags/bbbb",
                Lookup.make (VStr "taxonomy_term") (VStr "tags") (VStr "bbbb"))]
              eq_refl eq_refl eq_refl eq_refl eq_refl)
    as [rs [Hrs [_ [_ [_ [_ [Hnd [_ Hrej]]]]]]]].
  exists rs. split; [exact Hrs|]. split; [|split; [exact Hnd | exact Hrej]].
  vm_compute in Hrs. now injection Hrs as <-.
Defined.

(** C3, as the claim states it, fails twice.  A reference under a
    relationship named [title] is reachable from the relationship group and
    has not been traversed, yet [loadRelationships] makes no call for it;
    and once one call is rejected the promise is rejected although another
    call is still pending. *)
Lemma loadRelationships_not_all_reachable :
  (let e := built titled_reference in
   let r := VObj [("type", VStr "node--page"); ("id", VStr "c0de")] in
   construct titled_reference = Ok e /\
   isCollection e = false /\
   Reach (prop (data e) "relationships") r /\
   dataToLookup r = Ok (Lookup.make (VStr "node") (VStr "page") (VStr "c0de")) /\
   hasBeenTraversed library_api
     (Lookup.make (VStr "node") (VStr "page") (VStr "c0de")) = false /\
   loadRelationships_requests library_api e 0 = Ok []) /\
  (let e := built tagged_article in
   let bbbb := Lookup.make (VStr "taxonomy_term") (VStr "tags") (VStr "bbbb") in
   (exists rs, loadRelationships_requests failing_api e 0 = Ok rs
               /\ In {| lookup_key := bbbb; at_depth := 1 |} rs) /\
   getEntity failing_api bbbb 1 = Pending /\
   loadRelationships failing_api e 0 = Rejected).
Proof.
  split.
  - cbv zeta. repeat split; try reflexivity.
    apply (Reach_member _ "title"
             (VObj [("data", VObj [("type", VStr "node--page"); ("id", VStr "c0de")])]));
      [reflexivity | now left |].
    apply (Reach_member _ "data"
             (VObj [("type", VStr "node--page"); ("id", VStr "c0de")]));
      [reflexivity | now left |].
    apply Reach_here. reflexivity.
  - cbv zeta. split; [|split; reflexivity].
    eexists. split; [reflexivity|]. right. now left.
Qed.

(** * Further properties *)

(** ** What [transform] does to a payload *)

Lemma set_key_twice {A} (k : string) (v v' : A) (m : list (string * A)) :
  set_key k v (set_key k v' m) = set_key k v m.
Proof.
  induction m as [|[k0 v0] m IH]; simpl.
  - now rewrite String.eqb_refl.
  - destruct (String.eqb k k0) eqn:E; simpl.
    + now rewrite String.eqb_refl.
    + rewrite E. now f_equal.
Qed.

(** Evaluate reads of members that were just written or deleted. *)
Ltac object_reads :=
  cbn [prop get bind assign1];
  rewrite ?lookup_set_key, ?lookup_remove_key, ?String.eqb_refl;
  eqb_literals.

(** [transform] on an object whose [data] is an object, in one step. *)
Lemma transform_object (top dk : list (string * jsval)) :
  lookup "data" top = Some (VObj dk) ->
  transform (VObj top) =
    (ca <- cleanFields (prop (VObj dk) "attributes") ;;
     cr <- cleanFields (prop (VObj dk) "relationships") ;;
     Ok (transform_result top dk ca cr)).
Proof.
  intros Hd. unfold transform, transform_result, delete. cbn [bind].
  assert (Hd2 : lookup "data" (remove_key "links" (remove_key "jsonapi" top))
                = Some (VObj dk)).
  { rewrite !lookup_remove_key. exact Hd. }
  set (k2 := remove_key "links" (remove_key "jsonapi" top)) in *.
  cbn [prop]. rewrite Hd2. cbn [truthy andb].
  destruct (truthy match lookup "links" dk with Some v => v | None => VUndef end)
    eqn:C; cbn [prop]; rewrite C; unfold cleanFieldSet;
    repeat (progress object_reads); rewrite ?Hd2;
    repeat (progress object_reads);
    (destruct (cleanFields match lookup "attributes" dk with
                           | Some v => v | None => VUndef end) as [ca|];
     [|reflexivity]);
    repeat (progress object_reads);
    (destruct (cleanFields match lookup "relationships" dk with
                           | Some v => v | None => VUndef end) as [cr|];
     [|reflexivity]);
    repeat (progress object_reads);
    rewrite !set_key_twice; reflexivity.
Qed.

Lemma cleanFields_returns (fields : jsval) :
  nullish fields = false <-> exists out, cleanFields fields = Ok out.
Proof.
  unfold cleanFields. split.
  - intros H. destruct fields; try discriminate; simpl; eauto.
  - intros [out H]. destruct fields; simpl in *; try discriminate; reflexivity.
Qed.

Lemma transform_inversion (r out : jsval) :
  transform r = Ok out ->
  exists top dk ca cr,
    r = VObj top /\
    lookup "data" top = Some (VObj dk) /\
    cleanFields (prop (VObj dk) "attributes") = Ok ca /\
    cleanFields (prop (VObj dk) "relationships") = Ok cr /\
    out = transform_result top dk ca cr.
Proof.
  intros H.
  destruct (transform_needs_field_sets r out H)
    as [top [dk [a [rel [-> [Hd _]]]]]].
  rewrite (transform_object top dk Hd) in H.
  destruct (cleanFields (prop (VObj dk) "attributes")) as [ca|] eqn:Ha;
    [|discriminate].
  destruct (cleanFields (prop (VObj dk) "relationships")) as [cr|] eqn:Hr;
    [|discriminate].
  injection H as <-. exists top, dk, ca, cr. repeat split; auto.
Qed.

Lemma getData_returns (input : jsval) :
  nullish input = false -> exists d, getData input = Ok d.
Proof.
  intros H. unfold getData, get.
  destruct input; try discriminate; cbn [bind];
    repeat match goal with
           | |- context [if ?c then _ else _] => destruct c
           end; eauto.
Qed.

(** X1.  The default constructor accepts a payload exactly when it is an
    object whose [data] is an object with an [attributes] and a
    [relationships] member that are neither undefined nor null; anything
    else, a collection included, makes it throw. *)
Theorem construct_accepts (payload : jsval) :
  (exists e, construct payload = Ok e) <->
  (exists top dk,
      payload = VObj top /\
      lookup "data" top = Some (VObj dk) /\
      nullish (prop (VObj dk) "attributes") = false /\
      nullish (prop (VObj dk) "relationships") = false).
Proof.
  split.
  - intros [e H]. unfold construct in H.
    destruct (transform payload) as [r|] eqn:Ht; [|discriminate].
    destruct (transform_inversion payload r Ht)
      as [top [dk [ca [cr [-> [Hd [Ha [Hr _]]]]]]]].
    exists top, dk. repeat split; auto.
    + apply cleanFields_returns. eauto.
    + apply cleanFields_returns. eauto.
  - intros [top [dk [-> [Hd [Ha Hr]]]]].
    apply cleanFields_returns in Ha, Hr.
    destruct Ha as [ca Ha], Hr as [cr Hr].
    unfold construct. rewrite (transform_object top dk Hd), Ha, Hr. cbn [bind].
    destruct (getData_returns (transform_result top dk ca cr) eq_refl) as [d Hg].
    rewrite Hg. cbn [bind]. eauto.
Qed.

(** X2.  [toObject()] gives a payload from which the constructor rebuilds
    the same entity: same cleaned resource, same data, same attributes. *)
Theorem toObject_rebuilds (payload : jsval) (e : Entity) :
  construct payload = Ok e -> construct (toObject e) = Ok e.
Proof.
  unfold construct, toObject. intros H.
  destruct (transform payload) as [r|] eqn:Ht; [|discriminate].
  cbn [bind] in H.
  destruct (getData r) as [d|] eqn:Hg; [|discriminate].
  cbn [bind] in H. injection H as <-. cbn [res].
  rewrite (transformed_fixed r (transform_transformed payload r Ht)).
  cbn [bind]. rewrite Hg. reflexivity.
Qed.

Lemma toObject_rebuilds_witness :
  construct (toObject (built tagged_article)) = Ok (built tagged_article).
Proof. apply (toObject_rebuilds tagged_article). reflexivity. Defined.

(** X3.  [transform] changes a payload in these places only: the top-level
    [jsonapi] and [links] go, [data.links] goes when it is truthy, and
    [data.attributes] and [data.relationships] are replaced by what
    [cleanFields] makes of them; every other member of the payload and of
    [data] (the [type] and [id] among them) reads as before. *)
Theorem transform_effect (r out : jsval) :
  transform r = Ok out ->
  prop out "jsonapi" = VUndef /\
  prop out "links" = VUndef /\
  (forall k, k <> "jsonapi" -> k <> "links" -> k <> "data" ->
             prop out k = prop r k) /\
  prop (prop out "data") "links" =
    (if truthy (prop (prop r "data") "links") then VUndef
     else prop (prop r "data") "links") /\
  cleanFields (prop (prop r "data") "attributes")
    = Ok (prop (prop out "data") "attributes") /\
  cleanFields (prop (prop r "data") "relationships")
    = Ok (prop (prop out "data") "relationships") /\
  (forall k, k <> "links" -> k <> "attributes" -> k <> "relationships" ->
             prop (prop out "data") k = prop (prop r "data") k).
Proof.
  intros H.
  destruct (transform_inversion r out H)
    as [top [dk [ca [cr [-> [Hd [Ha [Hr ->]]]]]]]].
  assert (Hne : forall a b : string, a <> b -> String.eqb a b = false).
  { intros a b Hab. destruct (String.eqb a b) eqn:E; [|reflexivity].
    apply String.eqb_eq in E. contradiction. }
  unfold transform_result.
  set (dk' := if truthy (prop (VObj dk) "links") then remove_key "links" dk else dk).
  assert (Hdk : forall k, k <> "links" -> lookup k dk' = lookup k dk).
  { intros k Hk. unfold dk'. destruct (truthy (prop (VObj dk) "links")); [|reflexivity].
    rewrite lookup_remove_key. now rewrite (Hne _ _ Hk). }
  assert (Hlinks : lookup "links" dk' =
                   if truthy (prop (VObj dk) "links") then None else lookup "links" dk).
  { unfold dk'. destruct (truthy (prop (VObj dk) "links")); [|reflexivity].
    rewrite lookup_remove_key. reflexivity. }
  cbn [prop]. rewrite Hd.
  repeat (progress object_reads).
  split; [reflexivity|]. split; [reflexivity|]. split.
  { intros k H1 H2 H3.
    rewrite !lookup_set_key, !lookup_remove_key.
    now rewrite (Hne _ _ H1), (Hne _ _ H2), (Hne _ _ H3). }
  split.
  { rewrite Hlinks. cbn [prop].
    destruct (truthy match lookup "links" dk with Some v => v | None => VUndef end);
      reflexivity. }
  split; [exact Ha|]. split; [exact Hr|].
  intros k H1 H2 H3. rewrite !lookup_set_key.
  rewrite (Hne _ _ H2), (Hne _ _ H3), (Hdk k H1). reflexivity.
Qed.

Lemma transform_effect_witness :
  prop (prop tagged_article_clean "data") "type" = VStr "node--article" /\
  prop (prop tagged_article_clean "data") "links" = VUndef /\
  cleanFields (prop (prop tagged_article "data") "attributes")
    = Ok (VObj [("title", VStr "Hello"); ("field_title", VStr "Hello")]).
Proof.
  destruct (transform_effect tagged_article tagged_article_clean eq_refl)
    as [_ [_ [_ [Hl [Ha [_ Hk]]]]]].
  split; [|split].
  - rewrite (Hk "type"); [reflexivity | discriminate | discriminate | discriminate].
  - exact Hl.
  - exact Ha.
Defined.

(** ** What [cleanFields] and [cleanField] keep *)

Lemma lookup_NoDup_In {A} (k : string) (v : A) (m : list (string * A)) :
  NoDup (map fst m) -> In (k, v) m -> lookup k m = Some v.
Proof.
  induction m as [|[k0 v0] m IH]; simpl; intros Hnd Hin; [contradiction|].
  inversion Hnd as [|x xs Hout Hnd']; subst.
  destruct Hin as [[= -> ->]|Hin].
  - now rewrite String.eqb_refl.
  - destruct (String.eqb k k0) eqn:E; [|auto].
    apply String.eqb_eq in E. subst k0. exfalso. apply Hout.
    apply (in_map fst) in Hin. exact Hin.
Qed.

Lemma fold_set_fresh {A} (h : string -> A) (ks : list string) :
  forall acc,
    NoDup (map fst acc ++ ks) ->
    fold_left (fun g k => set_key k (h k) g) ks acc
    = (acc ++ map (fun k => (k, h k)) ks)%list.
Proof.
  induction ks as [|k ks IH]; intros acc Hnd; simpl.
  - now rewrite app_nil_r.
  - rewrite set_key_fresh.
    + rewrite IH.
      * now rewrite <- app_assoc.
      * rewrite map_app. simpl. rewrite <- app_assoc. exact Hnd.
    + apply NoDup_remove_2 in Hnd. intros Hin. apply Hnd.
      apply in_or_app. now left.
Qed.

Lemma filter_keys {A} (test : string -> bool) (m : list (string * A)) :
  filter test (map fst m) = map fst (filter (fun kv => test (fst kv)) m).
Proof.
  induction m as [|[k v] m IH]; simpl; [reflexivity|].
  destruct (test k); simpl; now rewrite IH.
Qed.

Lemma NoDup_filter_keys {A} (test : string * A -> bool) (m : list (string * A)) :
  NoDup (map fst m) -> NoDup (map fst (filter test m)).
Proof.
  induction m as [|kv m IH]; simpl; intros H; [constructor|].
  inversion H as [|x xs Hout Hnd]; subst.
  destruct (test kv); simpl; [|auto].
  constructor; [|auto]. intros Hin. apply Hout.
  apply in_map_iff in Hin. destruct Hin as [kv' [Heq Hin]].
  apply filter_In in Hin. apply in_map_iff. exists kv'. tauto.
Qed.

(** X4.  On an object [cleanFields] keeps, in their order, exactly the
    members whose names pass one of its three tests, each with its value
    cleaned by [cleanField]; on an array, a string, a number or a boolean it
    gives the empty object; on undefined and null it throws. *)
Theorem cleanFields_keeps_matching (fields : jsval) :
  match fields with
  | VObj kvs =>
      NoDup (map fst kvs) ->
      cleanFields fields =
        Ok (VObj (map (fun kv => (fst kv, cleanField (snd kv)))
                    (filter (fun kv => fieldTests (fst kv)) kvs)))
  | VUndef | VNull => cleanFields fields = Err TypeError
  | _ => cleanFields fields = Ok (VObj [])
  end.
Proof.
  destruct fields as [| | b | n | s | l | kvs]; try reflexivity.
  - unfold cleanFields. cbn [keys bind].
    rewrite (filter_indices fieldTests 0 (String.length s) fieldTests_named).
    reflexivity.
  - unfold cleanFields. cbn [keys bind].
    rewrite (filter_indices fieldTests 0 (List.length l) fieldTests_named).
    reflexivity.
  - intros Hnd. unfold cleanFields. cbn [keys bind].
    rewrite filter_keys.
    set (kept := filter (fun kv => fieldTests (fst kv)) kvs).
    rewrite (fold_set_fresh (fun k => cleanField (prop (VObj kvs) k))).
    2:{ simpl. apply NoDup_filter_keys. exact Hnd. }
    simpl. do 2 f_equal. rewrite map_map. apply map_ext_in.
    intros [k v] Hin. simpl. apply filter_In in Hin. destruct Hin as [Hin _].
    now rewrite (lookup_NoDup_In k v kvs Hnd Hin).
Qed.

Lemma cleanFields_keeps_matching_witness :
  cleanFields (VObj mixed_fields) =
    Ok (VObj [("field_tags",
               VObj [("data", VArr [VObj [("type", VStr "taxonomy_term--tags");
                                          ("id", VStr "aaaa")]])]);
              ("drupal_internal_nid", VNum 42);
              ("path", VObj [("alias", VStr "/hello")])]).
Proof.
  rewrite (cleanFields_keeps_matching (VObj mixed_fields)).
  - reflexivity.
  - repeat constructor; simpl; intuition discriminate.
Defined.

Lemma truthy_member_of_object (o : jsval) (k : string) :
  named k = true -> String.eqb k "length" = false ->
  truthy (prop o k) = true -> truthy o = true.
Proof.
  intros Hn Hl Ht. destruct o; simpl in *; try discriminate; try reflexivity.
  rewrite Hl, arr_get_named in Ht by exact Hn. discriminate.
Qed.

(** X5.  On an object [cleanField] removes [links] exactly when
    [links.self] is truthy, replaces an array under [data] by the array of
    its cleaned elements, and leaves a [data] that is not an array and
    every other member as they are. *)
Theorem cleanField_effect (kvs : list (string * jsval)) :
  prop (cleanField (VObj kvs)) "links" =
    (if truthy (prop (prop (VObj kvs) "links") "self") then VUndef
     else prop (VObj kvs) "links") /\
  prop (cleanField (VObj kvs)) "data" =
    match prop (VObj kvs) "data" with
    | VArr l => VArr (map cleanField l)
    | d => d
    end /\
  (forall k, k <> "links" -> k <> "data" ->
             prop (cleanField (VObj kvs)) k = prop (VObj kvs) k).
Proof.
  rewrite cleanField_VObj.
  assert (Hne : forall a b : string, a <> b -> String.eqb a b = false).
  { intros a b Hab. destruct (String.eqb a b) eqn:E; [|reflexivity].
    apply String.eqb_eq in E. contradiction. }
  assert (Hcond : truthy (prop (VObj kvs) "links")
                  && truthy (prop (prop (VObj kvs) "links") "self")
                  = truthy (prop (prop (VObj kvs) "links") "self")).
  { destruct (truthy (prop (prop (VObj kvs) "links") "self")) eqn:E.
    - rewrite (truthy_member_of_object _ "self" eq_refl eq_refl E). reflexivity.
    - apply andb_false_r. }
  rewrite Hcond.
  destruct (truthy (prop (prop (VObj kvs) "links") "self")); cbn [prop];
    rewrite ?lookup_remove_key, ?lookup_on_data; eqb_literals;
    (split; [reflexivity|]); (split;
      [destruct (lookup "data" kvs) as [[]|]; reflexivity|]);
    intros k H1 H2;
    rewrite ?lookup_remove_key, ?lookup_on_data, ?(Hne _ _ H1), ?(Hne _ _ H2);
    reflexivity.
Qed.

(** X6.  [cleanField] is idempotent on every value: cleaning a cleaned
    field changes nothing. *)
Theorem cleanField_applied_twice (field : jsval) :
  cleanField (cleanField field) = cleanField field.
Proof. apply cleanField_idempotent. Qed.

(** ** Memoization *)

(** X7.  The [id] getter is stable: a second call returns what the first
    returned, and leaves the instance as the first call left it, also when
    the attribute it found is falsy and is therefore looked up again. *)
Theorem id_memoized (e : Entity) : id (snd (id e)) = id e.
Proof.
  unfold id, bindM, this, lift, ret.
  destruct (negb (truthy (_id e))) eqn:Hid.
  - destruct (keys (attrs e)) as [ks|er] eqn:Hk.
    + destruct (find re_is_id ks) as [key|] eqn:Hf.
      * cbn [snd _id attrs].
        destruct (negb (truthy (prop (attrs e) key))).
        -- rewrite Hk, Hf. reflexivity.
        -- reflexivity.
      * cbn [snd]. rewrite Hid, Hk, Hf. reflexivity.
    + cbn [snd]. rewrite Hid, Hk. reflexivity.
  - cbn [snd]. rewrite Hid. reflexivity.
Qed.

Lemma fieldMap_again (e : Entity) : fieldMap (snd (fieldMap e)) = fieldMap e.
Proof.
  unfold fieldMap, bindM, this, lift, ret.
  destruct (negb (isCollection e) && Nat.eqb (List.length (_fieldMap e)) 0) eqn:C.
  - destruct (fieldPairs e) as [pairs|er] eqn:Hp.
    + cbn [snd _fieldMap].
      apply andb_true_iff in C. destruct C as [Hc _].
      change (isCollection
                {| res := res e; data := data e; attrs := attrs e;
                   relationshipGroups := relationshipGroups e;
                   _fieldMap := new_Map pairs; _id := _id e |})
        with (isCollection e).
      rewrite Hc. cbn [andb].
      destruct (Nat.eqb (List.length (new_Map pairs)) 0).
      * change (fieldPairs
                  {| res := res e; data := data e; attrs := attrs e;
                     relationshipGroups := relationshipGroups e;
                     _fieldMap := new_Map pairs; _id := _id e |})
          with (fieldPairs e).
        rewrite Hp. reflexivity.
      * reflexivity.
    + cbn [snd]. rewrite C, Hp. reflexivity.
  - cbn [snd]. rewrite C. reflexivity.
Qed.

Lemma field_state (name : string) (e : Entity) :
  snd (field name e) = snd (fieldMap e).
Proof.
  pose proof (fieldMap_again e) as H.
  unfold field, bindM, this, lift, throw.
  destruct (fieldMap e) as [[m|er] e1]; cbn [snd] in *; [|reflexivity].
  destruct (lookup name m).
  - rewrite H. destruct (lookup name m); reflexivity.
  - destruct (entity e1); reflexivity.
Qed.

Lemma field_again (name : string) (e : Entity) :
  field name (snd (field name e)) = field name e.
Proof.
  rewrite field_state. pose proof (fieldMap_again e) as H.
  unfold field, bindM, this, lift, throw.
  destruct (fieldMap e) as [[m|er] e1]; cbn [snd] in *; rewrite H; [|reflexivity].
  destruct (lookup name m).
  - rewrite H. reflexivity.
  - reflexivity.
Qed.

(** X8.  Repeated calls give identical results: the [fieldMap] getter,
    [field], [value] and [allValues] each return on a second call what they
    returned on the first and leave the instance unchanged, so the lazily
    built field map is not observable. *)
Theorem repeated_calls_agree (api : Api) (depth : nat) (name : string) (e : Entity) :
  fieldMap (snd (fieldMap e)) = fieldMap e /\
  field name (snd (field name e)) = field name e /\
  value api depth name (snd (value api depth name e)) = value api depth name e /\
  allValues api depth name (snd (allValues api depth name e))
    = allValues api depth name e.
Proof.
  split; [apply fieldMap_again|]. split; [apply field_again|].
  pose proof (field_again name e) as Hf.
  split.
  - destruct depth as [|d]; [reflexivity|].
    cbn [value]. unfold bindM, lift.
    destruct (field name e) as [[f|er] e1]; cbn [snd] in Hf.
    + destruct (valueProcessor f) eqn:Hv; cbn [snd]; rewrite Hf, Hv; reflexivity.
    + cbn [snd]. rewrite Hf. reflexivity.
  - destruct depth as [|d]; [reflexivity|].
    unfold allValues, bindM, lift, ret.
    destruct (field name e) as [[f|er] e1]; cbn [snd] in Hf.
    + destruct (if isArray f then Ok f
                else d0 <- get f "data" ;; Ok (if isArray d0 then d0 else f))
        as [f'|er] eqn:Hw.
      * destruct f' as [| | | | | items |];
          try (cbn [snd]; rewrite Hf, Hw; reflexivity).
        destruct (map_result _ items) eqn:Hm; cbn [snd]; rewrite Hf, Hw, Hm;
          reflexivity.
      * cbn [snd]. rewrite Hf, Hw. reflexivity.
    + cbn [snd]. rewrite Hf. reflexivity.
Qed.

(** ** The [id] getter after the default transform *)

(** X9.  Whatever the payload, an entity built with the default transform
    answers [null] to [id]: no attribute name passes both the test of
    [cleanFields] and the test of the getter, so the getter finds nothing
    to read. *)
Theorem default_id_is_null (payload : jsval) (e : Entity) :
  construct payload = Ok e ->
  fst (id e) = Ok VNull /\
  (forall k, re_is_id k = true -> prop (attrs e) k = VUndef).
Proof.
  intros H. split; [exact (constructed_id_is_null payload e H)|].
  intros k Hk. destruct (constructed payload e H) as [_ [[c [Ha [_ Hc]]] _]].
  rewrite Ha. cbn [prop].
  destruct (lookup k c) as [v|] eqn:El; [|reflexivity].
  apply lookup_Some_In in El. rewrite Forall_forall in Hc.
  destruct (Hc (k, v) El) as [Ht _]. simpl in Ht.
  rewrite (id_key_is_cleaned_away k Hk) in Ht. discriminate.
Qed.

Lemma default_id_is_null_witness :
  fst (id (built tagged_article)) = Ok VNull /\
  (forall k, re_is_id k = true -> prop (attrs (built tagged_article)) k = VUndef).
Proof. apply (default_id_is_null tagged_article). reflexivity. Defined.

(** ** The whole field map *)

Lemma existsb_eqb_In (name : string) (ks : list string) :
  existsb (String.eqb name) ks = true <-> In name ks.
Proof.
  rewrite existsb_exists. split.
  - intros [k [Hin E]]. apply String.eqb_eq in E. now subst k.
  - intros Hin. exists name. split; [exact Hin | apply String.eqb_refl].
Qed.

Lemma lookup_makePath_rev (name : string) (ns path : list string) :
  lookup name (rev (makePath ns path)) =
  if existsb (String.eqb name) ns then Some (path ++ [name])%list else None.
Proof.
  destruct (existsb (String.eqb name) ns) eqn:E.
  - apply existsb_eqb_In in E. now apply lookup_makePath.
  - apply lookup_None. intros Hin. unfold makePath in Hin.
    rewrite <- map_rev, map_map in Hin. simpl in Hin. rewrite map_id in Hin.
    apply in_rev in Hin. apply existsb_eqb_In in Hin. congruence.
Qed.

Lemma fieldMap_lookup (e : Entity) (ks ns : list string) (name : string) :
  isCollection e = false ->
  _fieldMap e = [] ->
  relationshipGroups e = ["relationships"] ->
  keys (attrs e) = Ok ks ->
  relationshipFieldNames e "relationships" = Ok ns ->
  exists m,
    fst (fieldMap e) = Ok m /\
    NoDup (map fst m) /\
    lookup name m =
      if existsb (String.eqb name) ns then Some ["data"; "relationships"; name]
      else if existsb (String.eqb name) ks then Some ["data"; "attributes"; name]
           else None.
Proof.
  intros Hc Hm Hg Hks Hns.
  assert (Hp : fieldPairs e =
               Ok (makePath ks ["data"; "attributes"]
                   ++ makePath ns ["data"; "relationships"])%list).
  { unfold fieldPairs. rewrite Hks, Hg. simpl. rewrite Hns. reflexivity. }
  eexists. split; [apply (fieldMap_first_use e _ Hc Hm Hp)|]. split.
  - unfold new_Map. apply fold_set_NoDup. constructor.
  - unfold new_Map. rewrite lookup_fold_set, rev_app_distr, lookup_app.
    rewrite !lookup_makePath_rev.
    destruct (existsb (String.eqb name) ns); [reflexivity|].
    destruct (existsb (String.eqb name) ks); reflexivity.
Qed.

(** X10.  On first use the field map of an entity that is not a collection
    holds each attribute key and each relationship field name that passes
    [relationshipTests] exactly once and nothing else; a name that is only
    an attribute key is mapped to [data, attributes, name]. *)
Theorem fieldMap_holds_exactly (e : Entity) (ks ns : list string) :
  isCollection e = false ->
  _fieldMap e = [] ->
  relationshipGroups e = ["relationships"] ->
  keys (attrs e) = Ok ks ->
  relationshipFieldNames e "relationships" = Ok ns ->
  exists m,
    fst (fieldMap e) = Ok m /\
    NoDup (map fst m) /\
    (forall name, In name (map fst m) <-> In name ks \/ In name ns) /\
    (forall name, In name ks -> ~ In name ns ->
                  lookup name m = Some ["data"; "attributes"; name]).
Proof.
  intros Hc Hm Hg Hks Hns.
  destruct (fieldMap_lookup e ks ns "" Hc Hm Hg Hks Hns) as [m [Hf [Hnd _]]].
  exists m. split; [exact Hf|]. split; [exact Hnd|].
  assert (Hl : forall name,
             lookup name m =
             if existsb (String.eqb name) ns then Some ["data"; "relationships"; name]
             else if existsb (String.eqb name) ks
                  then Some ["data"; "attributes"; name] else None).
  { intros name.
    destruct (fieldMap_lookup e ks ns name Hc Hm Hg Hks Hns) as [m' [Hf' [_ H]]].
    congruence. }
  split.
  - intros name. specialize (Hl name). split.
    + intros Hin. destruct (existsb (String.eqb name) ns) eqn:En.
      * right. now apply existsb_eqb_In.
      * destruct (existsb (String.eqb name) ks) eqn:Ek.
        -- left. now apply existsb_eqb_In.
        -- apply lookup_None in Hl. contradiction.
    + intros Hin.
      destruct (lookup name m) eqn:El.
      * apply lookup_Some_In in El. apply (in_map fst) in El. exact El.
      * exfalso. destruct Hin as [Hin|Hin]; apply existsb_eqb_In in Hin;
          rewrite Hin in Hl; [destruct (existsb (String.eqb name) ns)|];
          discriminate.
  - intros name Hk Hn. rewrite Hl.
    apply existsb_eqb_In in Hk. rewrite Hk.
    destruct (existsb (String.eqb name) ns) eqn:En; [|reflexivity].
    apply existsb_eqb_In in En. contradiction.
Qed.

Lemma fieldMap_holds_exactly_witness :
  exists m,
    fst (fieldMap (built tagged_article)) = Ok m /\
    NoDup (map fst m) /\
    (forall name, In name (map fst m) <->
                  In name ["title"; "field_title"] \/ In name ["field_tags"]) /\
    (forall name, In name ["title"; "field_title"] -> ~ In name ["field_tags"] ->
                  lookup name m = Some ["data"; "attributes"; name]).
Proof.
  apply (fieldMap_holds_exactly (built tagged_article)); reflexivity.
Defined.

(** ** [field] on an entity built by the default constructor *)

Lemma lookup_fold_keys {A} (h : string -> A) (name : string) (ks : list string) :
  forall acc,
    lookup name (fold_left (fun g k => set_key k (h k) g) ks acc) =
    if existsb (String.eqb name) ks then Some (h name) else lookup name acc.
Proof.
  induction ks as [|k ks IH]; intros acc; simpl; [reflexivity|].
  rewrite IH, lookup_set_key.
  destruct (existsb (String.eqb name) ks); [now rewrite orb_true_r|].
  rewrite orb_false_r.
  destruct (String.eqb name k) eqn:E; [|reflexivity].
  apply String.eqb_eq in E. now subst k.
Qed.

Lemma existsb_filter (test : string -> bool) (name : string) (ks : list string) :
  existsb (String.eqb name) (filter test ks)
  = test name && existsb (String.eqb name) ks.
Proof.
  induction ks as [|k ks IH]; simpl; [now rewrite andb_false_r|].
  destruct (String.eqb name k) eqn:E.
  - apply String.eqb_eq in E. subst k.
    destruct (test name); simpl; [now rewrite String.eqb_refl | exact IH].
  - destruct (test k); simpl; rewrite ?E; exact IH.
Qed.

Lemma existsb_keys {A} (name : string) (m : list (string * A)) :
  existsb (String.eqb name) (map fst m) =
  match lookup name m with
  | Some _ => true
  | None => false
  end.
Proof.
  induction m as [|[k v] m IH]; simpl; [reflexivity|].
  destruct (String.eqb name k); [reflexivity | exact IH].
Qed.

(** What [cleanFields] holds under each name. *)
Lemma cleanFields_lookup (fields : jsval) (ks : list string) :
  keys fields = Ok ks ->
  exists out,
    cleanFields fields = Ok (VObj out) /\
    forall name,
      lookup name out =
      if fieldTests name && existsb (String.eqb name) ks
      then Some (cleanField (prop fields name)) else None.
Proof.
  intros Hk. unfold cleanFields. rewrite Hk. cbn [bind].
  eexists. split; [reflexivity|]. intros name.
  rewrite (lookup_fold_keys (fun k => cleanField (prop fields k))).
  rewrite existsb_filter. reflexivity.
Qed.

Lemma relationshipTests_fieldTests (k : string) :
  relationshipTests k = true -> fieldTests k = true.
Proof.
  unfold relationshipTests, fieldTests, re_paragraphs, re_named.
  intros H. apply orb_true_iff in H. destruct H as [H|H].
  - now rewrite H.
  - rewrite H. now rewrite !orb_true_r.
Qed.

Lemma field_result (name : string) (e : Entity) (m : list (string * list string)) :
  fst (fieldMap e) = Ok m ->
  fst (field name e) =
    match lookup name m with
    | Some path => getPath e path
    | None => kind <- entity e ;; Err (Error (notPartOf name (to_string kind)))
    end.
Proof.
  intros Hm. pose proof (fieldMap_again e) as Ha.
  pose proof (fieldMap_keeps_res e) as Hres.
  unfold field, bindM, this, lift, throw.
  destruct (fieldMap e) as [r e1]. cbn [fst snd] in *. subst r.
  assert (He : entity e1 = entity e) by (unfold entity; now rewrite Hres).
  assert (Hg : forall path, getPath e1 path = getPath e path)
    by (intros path; unfold getPath; now rewrite Hres).
  destruct (lookup name m) as [path|] eqn:El.
  - rewrite Ha, El. cbn [fst]. apply Hg.
  - rewrite He. destruct (entity e); reflexivity.
Qed.

(** X11.  For a resource with a truthy [type] and [id], accepted by the
    default constructor, [field(name)] returns the cleaned relationship
    field of the payload when [name] passes [relationshipTests] and is a
    member of its [relationships]; otherwise the cleaned attribute when
    [name] passes the tests of [cleanFields] and is a member of its
    [attributes]; otherwise it throws the field-not-found error. *)
Theorem field_reads_payload
    (top dk : list (string * jsval)) (ka kr : list string)
    (e : Entity) (name : string) :
  construct (VObj top) = Ok e ->
  lookup "data" top = Some (VObj dk) ->
  truthy (prop (VObj dk) "type") = true ->
  truthy (prop (VObj dk) "id") = true ->
  keys (prop (VObj dk) "attributes") = Ok ka ->
  keys (prop (VObj dk) "relationships") = Ok kr ->
  fst (field name e) =
    if relationshipTests name && existsb (String.eqb name) kr
    then Ok (cleanField (prop (prop (VObj dk) "relationships") name))
    else if fieldTests name && existsb (String.eqb name) ka
         then Ok (cleanField (prop (prop (VObj dk) "attributes") name))
         else kind <- entity e ;;
              Err (Error (notPartOf name (to_string kind))).
Proof.
  intros Hc Hd Hty Hid Hka Hkr.
  destruct (cleanFields_lookup _ ka Hka) as [ca [Hca Hla]].
  destruct (cleanFields_lookup _ kr Hkr) as [cr [Hcr Hlr]].
  unfold construct in Hc.
  rewrite (transform_object top dk Hd), Hca, Hcr in Hc. cbn [bind] in Hc.
  set (dk' := if truthy (prop (VObj dk) "links")
              then remove_key "links" dk else dk) in *.
  assert (Hdk : forall k, String.eqb k "links" = false -> lookup k dk' = lookup k dk).
  { intros k Hk. unfold dk'. destruct (truthy (prop (VObj dk) "links"));
      [|reflexivity]. rewrite lookup_remove_key. now rewrite Hk. }
  set (D := set_key "relationships" (VObj cr) (set_key "attributes" (VObj ca) dk')).
  assert (Hres : transform_result top dk (VObj ca) (VObj cr)
                 = VObj (set_key "data" (VObj D)
                           (remove_key "links" (remove_key "jsonapi" top))))
    by reflexivity.
  rewrite Hres in Hc.
  assert (HD : forall k, lookup k D =
                         if String.eqb k "relationships" then Some (VObj cr)
                         else if String.eqb k "attributes" then Some (VObj ca)
                              else lookup k dk').
  { intros k. unfold D. now rewrite !lookup_set_key. }
  assert (Hg : getData (VObj (set_key "data" (VObj D)
                                (remove_key "links" (remove_key "jsonapi" top))))
               = Ok (VObj D)).
  { unfold getData. cbn [get prop bind]. rewrite lookup_set_key, String.eqb_refl.
    cbn [prop truthy andb]. rewrite !HD. eqb_literals.
    rewrite !Hdk by reflexivity. cbn [prop] in Hty, Hid. rewrite Hty, Hid.
    reflexivity. }
  rewrite Hg in Hc. cbn [bind] in Hc. injection Hc as <-.
  set (e := {| res := _; data := _; attrs := _; relationshipGroups := _;
               _fieldMap := _; _id := _ |}).
  assert (Hattrs : attrs e = VObj ca).
  { unfold e. cbn [attrs prop truthy andb]. rewrite lookup_set_key, String.eqb_refl.
    cbn [prop truthy andb]. rewrite !HD. eqb_literals. reflexivity. }
  assert (Hnames : relationshipFieldNames e "relationships"
                   = Ok (filter relationshipTests (map fst cr))).
  { unfold relationshipFieldNames, e. cbn [data get prop bind]. rewrite HD.
    eqb_literals. reflexivity. }
  destruct (fieldMap_lookup e (map fst ca) (filter relationshipTests (map fst cr))
              name eq_refl eq_refl eq_refl)
    as [m [Hm [_ Hl]]]; [now rewrite Hattrs | exact Hnames |].
  rewrite (field_result name e m Hm), Hl.
  rewrite existsb_filter, !existsb_keys, Hla, Hlr.
  assert (Hpath : forall group v,
             lookup group D = Some (VObj v) ->
             getPath e ["data"; group; name] = Ok (prop (VObj v) name)).
  { intros group v Hv. unfold getPath, e. cbn [fold_left res get prop bind].
    rewrite lookup_set_key, String.eqb_refl. cbn [get prop bind].
    rewrite Hv. reflexivity. }
  destruct (relationshipTests name) eqn:Hrt.
  - rewrite (relationshipTests_fieldTests name Hrt). cbn [andb].
    destruct (existsb (String.eqb name) kr) eqn:Ekr.
    + rewrite (Hpath "relationships" cr) by (rewrite HD; reflexivity).
      cbn [prop]. now rewrite Hlr, (relationshipTests_fieldTests name Hrt), Ekr.
    + destruct (existsb (String.eqb name) ka) eqn:Ea; [|reflexivity].
      rewrite (Hpath "attributes" ca) by (rewrite HD; reflexivity).
      cbn [prop]. now rewrite Hla, (relationshipTests_fieldTests name Hrt), Ea.
  - cbn [andb].
    replace (match (if fieldTests name && existsb (String.eqb name) kr
                    then Some (cleanField (prop (prop (VObj dk) "relationships") name))
                    else None)
             with Some _ => true | None => false end && false)
      with false by (now rewrite andb_false_r).
    destruct (fieldTests name && existsb (String.eqb name) ka) eqn:Ea;
      [|reflexivity].
    rewrite (Hpath "attributes" ca) by (rewrite HD; reflexivity).
    cbn [prop]. now rewrite Hla, Ea.
Qed.

Lemma field_reads_payload_witness :
  fst (field "field_tags" (built tagged_article)) =
    Ok (VObj [("data", VArr [VObj [("type", VStr "taxonomy_term--tags");
                                   ("id", VStr "aaaa")];
                             VObj [("type", VStr "taxonomy_term--tags");
                                   ("id", VStr "bbbb")]])]) /\
  fst (field "langcode" (built tagged_article)) =
    Err (Error "The field (langcode) is not part of the entity (node)").
Proof.
  split.
  - rewrite (field_reads_payload (members tagged_article)
               (members (prop tagged_article "data"))
               ["drupal_internal__nid"; "langcode"; "title"; "field_title"]
               ["uid"; "field_tags"]
               (built tagged_article) "field_tags"); reflexivity.
  - rewrite (field_reads_payload (members tagged_article)
               (members (prop tagged_article "data"))
               ["drupal_internal__nid"; "langcode"; "title"; "field_title"]
               ["uid"; "field_tags"]
               (built tagged_article) "langcode"); reflexivity.
Defined.

(** ** Entities of other shapes *)

Lemma member_of_object (o : jsval) (k : string) :
  named k = true -> String.eqb k "length" = false ->
  truthy (prop o k) = true -> exists kvs, o = VObj kvs.
Proof.
  intros Hn Hl Ht. destruct o; simpl in *; try discriminate; eauto;
    rewrite Hl, arr_get_named in Ht by exact Hn; discriminate.
Qed.

(** [getData] returns an object, or the array under [data]. *)
Lemma getData_shape (input d : jsval) :
  getData input = Ok d ->
  (exists kvs, d = VObj kvs) \/ (exists l, d = VArr l /\ prop input "data" = d).
Proof.
  unfold getData, get. destruct input; try discriminate; cbn [bind];
    match goal with
    | |- context [prop ?i "data"] => set (d0 := prop i "data")
    end;
    (destruct (truthy d0 && truthy (prop d0 "type") && truthy (prop d0 "id")) eqn:C1;
     [ intros [= <-]; left;
       apply andb_true_iff in C1; destruct C1 as [C1 _];
       apply andb_true_iff in C1; destruct C1 as [_ C1];
       exact (member_of_object d0 "type" eq_refl eq_refl C1)
     | ]);
    match goal with
    | |- context [truthy (prop ?i "type") && truthy (prop ?i "id")] =>
        destruct (truthy (prop i "type") && truthy (prop i "id")) eqn:C2
    end;
    try (intros [= <-]; left;
         apply andb_true_iff in C2; destruct C2 as [C2 _];
         match type of C2 with
         | truthy (prop ?i "type") = true =>
             exact (member_of_object i "type" eq_refl eq_refl C2)
         end);
    (destruct (truthy d0 && isArray d0) eqn:C3;
     [ intros [= <-]; right;
       apply andb_true_iff in C3; destruct C3 as [_ C3];
       destruct d0; try discriminate; eauto
     | intros [= <-]; left; eauto ]).
Qed.

(** X12.  An entity that wraps a collection cannot be queried: its field
    map stays empty, [field] and [value] throw a TypeError for every name
    (the entity kind cannot be read off an array), and [loadRelationships]
    makes no request and is fulfilled at once. *)
Theorem collection_entity
    (cleanEntity : jsval -> result jsval) (payload : jsval) (e : Entity) :
  construct_with cleanEntity payload = Ok e ->
  isCollection e = true ->
  fieldMap e = (Ok [], e) /\
  (forall name, field name e = (Err TypeError, e)) /\
  (forall api depth name, value api (S depth) name e = (Err TypeError, e)) /\
  (forall api depth,
      loadRelationships_requests api e depth = Ok [] /\
      loadRelationships api e depth = Fulfilled).
Proof.
  unfold construct_with. intros H Hc.
  destruct (cleanEntity payload) as [r|]; [|discriminate]. cbn [bind] in H.
  destruct (getData r) as [d|] eqn:Hg; [|discriminate]. cbn [bind] in H.
  injection H as <-. unfold isCollection in Hc. cbn [data] in Hc.
  destruct (getData_shape r d Hg) as [[kvs ->]|[l [-> Hd]]]; [discriminate|].
  set (e := {| res := r; data := VArr l; attrs := _; relationshipGroups := _;
               _fieldMap := _; _id := _ |}).
  assert (Hmap : fieldMap e = (Ok [], e)) by reflexivity.
  assert (Hent : entity e = Err TypeError).
  { unfold entity, e. cbn [res]. unfold get.
    destruct r; try discriminate; cbn [bind]; rewrite Hd; cbn [bind prop];
      eqb_literals; rewrite arr_get_named by reflexivity; reflexivity. }
  assert (Hfield : forall name, field name e = (Err TypeError, e)).
  { intros name. unfold field, bindM, this, lift, throw. rewrite Hmap.
    cbn [lookup]. rewrite Hent. reflexivity. }
  split; [exact Hmap|]. split; [exact Hfield|]. split.
  - intros api depth name. cbn [value]. unfold bindM. now rewrite Hfield.
  - intros api depth.
    assert (Hr : loadRelationships_requests api e depth = Ok []) by reflexivity.
    split; [exact Hr|]. unfold loadRelationships. now rewrite Hr.
Qed.

Lemma collection_entity_witness :
  isCollection (match construct_with keep_as_is two_articles with
                | Ok e => e
                | Err _ => built two_articles
                end) = true /\
  forall name,
    fst (field name (match construct_with keep_as_is two_articles with
                     | Ok e => e
                     | Err _ => built two_articles
                     end)) = Err TypeError.
Proof.
  split; [reflexivity|]. intros name.
  destruct (collection_entity keep_as_is two_articles _ eq_refl eq_refl)
    as [_ [Hf _]].
  now rewrite Hf.
Defined.

Lemma keys_of_truthy (v : jsval) :
  truthy v = true -> exists ks, keys v = Ok ks.
Proof. destruct v; simpl; try discriminate; eauto. Qed.

(** X13.  Whatever [cleanEntity] returned, the constructor leaves an object
    or an array in [data] and something with keys in [attrs]; so
    [relationshipFieldNames] returns for every group, with names that all
    pass [relationshipTests], and the [fieldMap] getter never throws. *)
Theorem constructed_reads_never_throw
    (cleanEntity : jsval -> result jsval) (payload : jsval) (e : Entity) :
  construct_with cleanEntity payload = Ok e ->
  is_object (data e) = true /\
  (exists ks, keys (attrs e) = Ok ks) /\
  (forall group, exists names,
      relationshipFieldNames e group = Ok names /\
      Forall (fun k => relationshipTests k = true) names) /\
  (exists m, fst (fieldMap e) = Ok m).
Proof.
  unfold construct_with. intros H.
  destruct (cleanEntity payload) as [r|]; [|discriminate]. cbn [bind] in H.
  destruct (getData r) as [d|] eqn:Hg; [|discriminate]. cbn [bind] in H.
  injection H as <-.
  set (e := {| res := r; data := d; attrs := _; relationshipGroups := _;
               _fieldMap := _; _id := _ |}).
  assert (Hobj : is_object d = true).
  { destruct (getData_shape r d Hg) as [[kvs ->]|[l [-> _]]]; reflexivity. }
  assert (Hattrs : exists ks, keys (attrs e) = Ok ks).
  { unfold e. cbn [attrs].
    destruct (truthy r && truthy (prop r "data")
              && truthy (prop (prop r "data") "attributes")) eqn:C.
    - apply andb_true_iff in C. destruct C as [_ C]. now apply keys_of_truthy.
    - simpl. eauto. }
  assert (Hnames : forall group, exists names,
             relationshipFieldNames e group = Ok names /\
             Forall (fun k => relationshipTests k = true) names).
  { intros group. unfold relationshipFieldNames, e. cbn [data].
    assert (Hget : get d group = Ok (prop d group))
      by (destruct d; try discriminate; reflexivity).
    rewrite Hget. cbn [bind].
    assert (Hk : exists ks, keys (if truthy (prop d group)
                                  then prop d group else VArr []) = Ok ks).
    { destruct (truthy (prop d group)) eqn:T;
        [now apply keys_of_truthy | simpl; eauto]. }
    destruct Hk as [ks Hk]. rewrite Hk. cbn [bind]. eexists.
    split; [reflexivity|]. rewrite Forall_forall. intros k Hin.
    apply filter_In in Hin. tauto. }
  split; [exact Hobj|]. split; [exact Hattrs|]. split; [exact Hnames|].
  unfold fieldMap, bindM, this, lift, ret.
  destruct (negb (isCollection e) && Nat.eqb (List.length (_fieldMap e)) 0);
    [|cbn [fst]; eauto].
  assert (Hp : exists pairs, fieldPairs e = Ok pairs).
  { unfold fieldPairs. destruct Hattrs as [ks ->]. cbn [bind].
    change (relationshipGroups e) with ["relationships"]. cbn [fold_left bind].
    destruct (Hnames "relationships") as [names [-> _]]. cbn [bind]. eauto. }
  destruct Hp as [pairs ->]. cbn [fst]. eauto.
Qed.

Lemma constructed_reads_never_throw_witness :
  exists m, fst (fieldMap (match construct_with keep_as_is two_articles with
                          | Ok e => e
                          | Err _ => built two_articles
                          end)) = Ok m.
Proof.
  destruct (constructed_reads_never_throw keep_as_is two_articles _ eq_refl)
    as [_ [_ [_ H]]].
  exact H.
Defined.

(** ** References and lookup keys *)

Lemma indexOf_from_step (i : Z) (c : ascii) (s : string) :
  indexOf_from i (String c s) =
  match s with
  | String c' rest =>
      if Ascii.eqb c "-" && Ascii.eqb c' "-"
      then i
      else indexOf_from (i + 1) s
  | EmptyString => indexOf_from (i + 1) s
  end.
Proof.
  destruct s as [|c' rest].
  - destruct c as [[] [] [] [] [] [] [] []]; reflexivity.
  - destruct c as [[] [] [] [] [] [] [] []]; try reflexivity.
    destruct c' as [[] [] [] [] [] [] [] []]; reflexivity.
Qed.

(** [indexOf] finds the place where [split] makes its first cut. *)
Lemma first_separator (n : nat) :
  forall s i cur,
    String.length s <= n -> (0 <= i)%Z ->
    (indexOf_from i s = (-1)%Z /\ split_from cur s = [cur ++ s]) \/
    (exists a b,
        s = a ++ "--" ++ b /\
        indexOf_from i s = (i + Z.of_nat (String.length a))%Z /\
        split_from cur s = (cur ++ a) :: split_from "" b).
Proof.
  induction n as [|n IH]; intros s i cur Hlen Hi.
  - destruct s; [|simpl in Hlen; lia]. left. simpl. now rewrite append_empty.
  - destruct s as [|c s]; [left; simpl; now rewrite append_empty|].
    rewrite indexOf_from_step, split_from_step. simpl in Hlen.
    destruct s as [|c' rest].
    + left. split; reflexivity.
    + destruct (Ascii.eqb c "-" && Ascii.eqb c' "-") eqn:E.
      * apply andb_true_iff in E. destruct E as [E1 E2].
        apply Ascii.eqb_eq in E1, E2. subst c c'.
        right. exists "", rest. simpl. rewrite append_empty.
        repeat split. lia.
      * destruct (IH (String c' rest) (i + 1)%Z (cur ++ String c ""))
          as [[Hi' Hs]|[a [b [Hs [Hi' Hsp]]]]]; [simpl in *; lia | lia | |].
        -- left. split; [exact Hi'|]. rewrite Hs, append_assoc. reflexivity.
        -- right. exists (String c a), b. repeat split.
           ++ rewrite Hs. reflexivity.
           ++ rewrite Hi'. simpl String.length. lia.
           ++ rewrite Hsp, append_assoc. reflexivity.
Qed.

(** X14.  A value the default [isRelationship] accepts has a truthy [id];
    when its [type] is a string, the kind before the first [--] is at
    least two characters long and [dataToLookup] returns that kind, the
    bundle up to the next [--] and the [id]; when its [type] is not a
    string (an array can pass the predicate) [dataToLookup] throws. *)
Theorem lookup_of_reference (v : jsval) :
  isRelationship v = Ok true ->
  truthy (prop v "id") = true /\
  match prop v "type" with
  | VStr t =>
      exists kind bundle rest more,
        t = kind ++ "--" ++ rest /\
        2 <= String.length kind /\
        split rest = bundle :: more /\
        dataToLookup v = Ok (Lookup.make (VStr kind) (VStr bundle) (prop v "id"))
  | _ => dataToLookup v = Err TypeError
  end.
Proof.
  intros H. destruct v as [| | | | | |kvs]; try discriminate.
  unfold isRelationship in H.
  destruct (truthy (prop (VObj kvs) "type")) eqn:Tt; [|discriminate].
  destruct (truthy (prop (VObj kvs) "id")) eqn:Ti; [|discriminate].
  split; [reflexivity|]. cbn [andb] in H.
  unfold dataToLookup, get. cbn [bind].
  destruct (prop (VObj kvs) "type") as [| | | | t | l |] eqn:Et;
    try discriminate; try reflexivity.
  injection H as H. apply Z.ltb_lt in H. unfold indexOf in H.
  destruct (first_separator (String.length t) t 0%Z "" (le_n _) (Z.le_refl 0))
    as [[Hi _]|[a [b [Hs [Hi Hsp]]]]]; [lia|].
  destruct (first_separator (String.length b) b 0%Z "" (le_n _) (Z.le_refl 0))
    as [[_ Hb]|[a' [b' [_ [_ Hb]]]]].
  - exists a, b, b, []. repeat split; auto; [lia|].
    cbn [split_of bind]. unfold split. rewrite Hsp, Hb. reflexivity.
  - exists a, a', b, (split_from "" b'). repeat split; auto; [lia|].
    cbn [split_of bind]. unfold split. rewrite Hsp, Hb. reflexivity.
Qed.

Lemma lookup_of_reference_witness :
  exists kind bundle rest more,
    "paragraph--from_library" = kind ++ "--" ++ rest /\
    2 <= String.length kind /\
    split rest = bundle :: more /\
    dataToLookup library_reference
    = Ok (Lookup.make (VStr kind) (VStr bundle) (prop library_reference "id")).
Proof.
  exact (proj2 (lookup_of_reference library_reference eq_refl)).
Defined.

(** ** The other branches of [getFieldValue] *)

(** X15.  What is not a relationship reference comes back unwrapped and
    otherwise untouched, and a reference whose kind and bundle are not
    [paragraph] and [from_library] resolves to exactly what the
    collaborator's [getRelationship] returns for it. *)
Theorem getFieldValue_direct
    (api : Api) (value_of : string -> M rv) (structure : jsval) (index : nat) :
  (isRelationship (unwrap structure index) = Ok false ->
   getFieldValue api value_of structure index = Ok (Plain (unwrap structure index)))
  /\
  (forall l,
      isRelationship (unwrap structure index) = Ok true ->
      dataToLookup (unwrap structure index) = Ok l ->
      Lookup.entity l <> VStr "paragraph" \/ Lookup.bundle l <> VStr "from_library" ->
      getFieldValue api value_of structure index
      = getRelationship api (unwrap structure index)).
Proof.
  unfold getFieldValue. cbv zeta. split.
  - intros ->. reflexivity.
  - intros l Hrel Hl Hnot. rewrite Hrel. cbn [bind].
    unfold dataToLookup in Hl.
    destruct (get (unwrap structure index) "type") as [t|]; [|discriminate].
    cbn [bind] in *.
    destruct (split_of t) as [parts|]; [|discriminate]. cbn [bind] in *.
    injection Hl as <-. cbn [Lookup.entity Lookup.bundle] in Hnot.
    assert (Hs : forall v s, is_str v s = true -> v = VStr s).
    { intros v s H. destruct v; try discriminate. simpl in H.
      apply String.eqb_eq in H. now subst. }
    destruct (is_str (at_index parts 0) "paragraph") eqn:E1; [|reflexivity].
    destruct (is_str (at_index parts 1) "from_library") eqn:E2; [|reflexivity].
    apply Hs in E1, E2. destruct Hnot as [H|H]; contradiction.
Qed.

Lemma getFieldValue_direct_witness :
  getFieldValue library_api (value library_api 1)
    (VObj [("data", VObj [("type", VStr "paragraph--text"); ("id", VStr "7e47")])]) 0
  = Ok (Instance (built text_paragraph)) /\
  getFieldValue library_api (value library_api 1) (VStr "Shared") 0
  = Ok (Plain (VStr "Shared")).
Proof.
  split.
  - rewrite (proj2 (getFieldValue_direct library_api (value library_api 1)
                      (VObj [("data", VObj [("type", VStr "paragraph--text");
                                            ("id", VStr "7e47")])]) 0)
               (Lookup.make (VStr "paragraph") (VStr "text") (VStr "7e47")));
      [reflexivity | reflexivity | reflexivity | right; discriminate].
  - rewrite (proj1 (getFieldValue_direct library_api (value library_api 1)
                      (VStr "Shared") 0)); reflexivity.
Defined.

(** X16.  Empty relationships do not resolve to [null]: a to-many wrapper
    whose [data] array has no element at the index resolves to undefined,
    and a wrapper whose [data] is null, having no [type] of its own,
    resolves to the wrapper itself. *)
Theorem getFieldValue_empty
    (api : Api) (value_of : string -> M rv)
    (kvs : list (string * jsval)) (index : nat) :
  (forall l, prop (VObj kvs) "data" = VArr l -> List.length l <= index ->
             getFieldValue api value_of (VObj kvs) index = Ok (Plain VUndef)) /\
  (prop (VObj kvs) "data" = VNull ->
   truthy (prop (VObj kvs) "type") = false ->
   getFieldValue api value_of (VObj kvs) index = Ok (Plain (VObj kvs))).
Proof.
  unfold getFieldValue, unwrap. cbv zeta. cbn [is_object]. split.
  - intros l Hd Hlen. rewrite Hd. unfold at_index.
    rewrite (nth_overflow l VUndef Hlen). reflexivity.
  - intros Hd Ht. rewrite Hd. cbn [truthy].
    unfold isRelationship. rewrite Ht. reflexivity.
Qed.

Lemma getFieldValue_empty_witness :
  getFieldValue library_api (value library_api 1)
    (VObj [("data", VArr [])]) 0 = Ok (Plain VUndef) /\
  getFieldValue library_api (value library_api 1)
    (VObj [("data", VNull)]) 0 = Ok (Plain (VObj [("data", VNull)])).
Proof.
  destruct (getFieldValue_empty library_api (value library_api 1)
              [("data", VArr [])] 0) as [H1 _].
  destruct (getFieldValue_empty library_api (value library_api 1)
              [("data", VNull)] 0) as [_ H2].
  split; [apply (H1 []); [reflexivity | apply le_n] | apply H2; reflexivity].
Defined.

(** ** [allValues] *)

Lemma map_result_Forall2 {A B} (f : A -> result B) (l : list A) (rs : list B) :
  map_result f l = Ok rs <-> Forall2 (fun x r => f x = Ok r) l rs.
Proof.
  revert rs. induction l as [|x l IH]; intros rs; simpl.
  - split.
    + intros [= <-]. constructor.
    + intros H. inversion H. reflexivity.
  - split.
    + destruct (f x) as [y|] eqn:Ex; [|discriminate]. cbn [bind].
      destruct (map_result f l) as [ys|]; [|discriminate]. cbn [bind].
      intros [= <-]. constructor; [exact Ex | now apply IH].
    + intros H. inversion H as [|x' r l' rs' Hx Hrest]; subst.
      rewrite Hx. cbn [bind]. apply IH in Hrest. rewrite Hrest. reflexivity.
Qed.

Lemma allValues_unfold (api : Api) (depth : nat) (name : string) (e : Entity)
    (f : jsval) :
  fst (field name e) = Ok f ->
  fst (allValues api (S depth) name e) =
    match f with
    | VUndef | VNull => Err TypeError
    | _ =>
        match to_many f with
        | Some l =>
            items <- map_result
                       (fun x => getFieldValue api (value api depth) x 0) l ;;
            Ok (Resolved items)
        | None => Ok (Raw f)
        end
    end.
Proof.
  intros H. unfold allValues, bindM, lift, ret.
  destruct (field name e) as [r e1]. cbn [fst] in H. subst r.
  destruct f as [| | b | n | s | l | kvs]; try reflexivity.
  - cbn [isArray get bind prop to_many]. eqb_literals.
    rewrite (arr_get_named (chars s) 0 "data" eq_refl). reflexivity.
  - cbn [isArray to_many].
    destruct (map_result _ l); reflexivity.
  - cbn [isArray get bind to_many].
    destruct (prop (VObj kvs) "data") as [| | | | | l |]; try reflexivity.
    cbn [isArray]. destruct (map_result _ l); reflexivity.
Qed.

(** X17.  On a to-many field (an array, or an object with an array under
    [data]) [allValues] resolves every element with [getFieldValue] at
    index 0 and returns the results in order, one per element; it throws
    as soon as one element does. *)
Theorem allValues_resolves_each
    (api : Api) (depth : nat) (name : string) (e : Entity)
    (f : jsval) (l : list jsval) :
  fst (field name e) = Ok f ->
  to_many f = Some l ->
  (forall rs,
      fst (allValues api (S depth) name e) = Ok (Resolved rs) <->
      Forall2 (fun x r => getFieldValue api (value api depth) x 0 = Ok r) l rs) /\
  (forall rs, fst (allValues api (S depth) name e) = Ok (Resolved rs) ->
              List.length rs = List.length l) /\
  (forall raw, fst (allValues api (S depth) name e) <> Ok (Raw raw)).
Proof.
  intros Hf Hm. rewrite (allValues_unfold api depth name e f Hf).
  assert (Hcase : match f with
                  | VUndef | VNull => Err TypeError
                  | _ => match to_many f with
                         | Some l =>
                             items <- map_result
                                        (fun x => getFieldValue api (value api depth) x 0)
                                        l ;;
                             Ok (Resolved items)
                         | None => Ok (Raw f)
                         end
                  end =
                  (items <- map_result
                              (fun x => getFieldValue api (value api depth) x 0) l ;;
                   Ok (Resolved items))).
  { destruct f; try discriminate; rewrite Hm; reflexivity. }
  rewrite Hcase. clear Hcase.
  assert (Hiff : forall rs,
             (items <- map_result
                         (fun x => getFieldValue api (value api depth) x 0) l ;;
              Ok (Resolved items)) = Ok (Resolved rs) <->
             Forall2 (fun x r => getFieldValue api (value api depth) x 0 = Ok r) l rs).
  { intros rs. rewrite <- map_result_Forall2.
    destruct (map_result _ l) as [items|]; cbn [bind].
    - split; [intros [= ->]; reflexivity | intros [= ->]; reflexivity].
    - split; discriminate. }
  split; [exact Hiff|]. split.
  - intros rs H. apply Hiff in H. symmetry. exact (Forall2_length H).
  - intros raw. destruct (map_result _ l); discriminate.
Qed.

Lemma allValues_resolves_each_witness :
  fst (allValues library_api 2 "field_content" (built page_with_library_paragraph))
  = Ok (Resolved [Instance (built text_paragraph)]).
Proof.
  destruct (allValues_resolves_each library_api 1 "field_content"
              (built page_with_library_paragraph)
              (VObj [("data", VArr [library_reference])]) [library_reference]
              eq_refl eq_refl) as [H _].
  apply H. constructor; [reflexivity | constructor].
Defined.

Lemma value_unfold (api : Api) (depth : nat) (name : string) (e : Entity) (f : jsval) :
  fst (field name e) = Ok f ->
  fst (value api (S depth) name e) =
    match valueProcessor f with
    | Some r => r
    | None => getFieldValue api (value api depth) f 0
    end.
Proof.
  intros H. cbn [value]. unfold bindM, lift.
  destruct (field name e) as [r e1]. cbn [fst] in H. subst r.
  destruct (valueProcessor f); reflexivity.
Qed.

(** X18.  On a field that is null [allValues] throws a TypeError (it reads
    [fields.data]) although [value] returns the null; on any other field
    that is not to-many (a scalar, or an object without an array under
    [data]) it returns the raw field, unresolved. *)
Theorem allValues_of_single
    (api : Api) (depth : nat) (name : string) (e : Entity) (f : jsval) :
  fst (field name e) = Ok f ->
  (nullish f = true ->
   fst (allValues api (S depth) name e) = Err TypeError /\
   fst (value api (S depth) name e) = Ok (Plain f)) /\
  (nullish f = false -> to_many f = None ->
   fst (allValues api (S depth) name e) = Ok (Raw f)).
Proof.
  intros Hf.
  rewrite (allValues_unfold api depth name e f Hf),
          (value_unfold api depth name e f Hf).
  split.
  - intros Hn. destruct f; try discriminate; split; reflexivity.
  - intros Hn Hm. destruct f; try discriminate; rewrite Hm; reflexivity.
Qed.

Lemma allValues_of_single_witness :
  fst (allValues library_api 1 "field_text" (built text_paragraph))
  = Ok (Raw (VStr "Shared")).
Proof.
  destruct (allValues_of_single library_api 0 "field_text" (built text_paragraph)
              (VStr "Shared") eq_refl) as [_ H].
  apply H; reflexivity.
Defined.

(** X19.  [value] returns a scalar field unchanged unless the field,
    written as a string, is the name of a function that the empty
    [valueProcessors] table inherits from [Object.prototype]
    ([constructor], [toString], [valueOf], ...): then that function is
    called as the field's processor and the field itself is not
    returned. *)
Theorem value_of_scalar
    (api : Api) (depth : nat) (name : string) (e : Entity) (f : jsval) :
  fst (field name e) = Ok f ->
  is_object f = false ->
  (fst (value api (S depth) name e) = Ok (Plain f) <->
   ~ In (to_string f) prototypeFunctions).
Proof.
  intros Hf Ho. rewrite (value_unfold api depth name e f Hf).
  unfold valueProcessor.
  destruct (existsb (String.eqb (to_string f)) prototypeFunctions) eqn:E.
  - apply existsb_eqb_In in E. split; [|contradiction].
    destruct (String.eqb (to_string f) "__defineGetter__"
              || String.eqb (to_string f) "__defineSetter__"); discriminate.
  - split.
    + intros _ Hin. apply existsb_eqb_In in Hin. congruence.
    + intros _. unfold getFieldValue, unwrap. rewrite Ho.
      destruct f; try discriminate; reflexivity.
Qed.

Lemma value_of_scalar_witness :
  fst (value library_api 1 "field_text" (built text_paragraph))
  = Ok (Plain (VStr "Shared")).
Proof.
  apply (value_of_scalar library_api 0 "field_text" (built text_paragraph)
           (VStr "Shared") eq_refl eq_refl).
  simpl. intuition discriminate.
Defined.

(** ** Requests and the visited set *)

Lemma loadRelationshipGroup_untraversed
    (api : Api) (e : Entity) (group : string) (depth : Z) (qs : list request) :
  loadRelationshipGroup api e group depth = Ok qs ->
  forall rq, In rq qs ->
             at_depth rq = (depth + 1)%Z /\
             hasBeenTraversed api (lookup_key rq) = false.
Proof.
  unfold loadRelationshipGroup. intros H rq Hin.
  destruct (get (data e) group) as [g|]; [|discriminate]. cbn [bind] in H.
  destruct (negb (isCollection e) && truthy g).
  - destruct (relationshipFieldNames e group) as [names|]; [|discriminate].
    cbn [bind] in H.
    destruct (parseRelationshipLookups api _) as [found|]; [|discriminate].
    cbn [bind] in H. injection H as <-.
    apply in_map_iff in Hin. destruct Hin as [l [<- Hl]].
    apply filter_In in Hl. destruct Hl as [_ Hl]. cbn [at_depth lookup_key].
    split; [reflexivity | now apply negb_true_iff in Hl].
  - injection H as <-. contradiction.
Qed.

(** X20.  Whatever the relationship groups, every request of
    [loadRelationships(depth)] is for a lookup the collaborator does not
    report as traversed and carries [depth + 1]; when the collaborator
    reports everything as traversed no request is made and the promise is
    fulfilled. *)
Theorem loadRelationships_respects_visited
    (api : Api) (e : Entity) (depth : Z) (rs : list request) :
  loadRelationships_requests api e depth = Ok rs ->
  (forall rq, In rq rs ->
              at_depth rq = (depth + 1)%Z /\
              hasBeenTraversed api (lookup_key rq) = false) /\
  ((forall l, hasBeenTraversed api l = true) ->
   rs = [] /\ loadRelationships api e depth = Fulfilled).
Proof.
  intros H.
  assert (Hall : forall rq, In rq rs ->
                            at_depth rq = (depth + 1)%Z /\
                            hasBeenTraversed api (lookup_key rq) = false).
  { unfold loadRelationships_requests in H.
    assert (G : forall groups acc out,
               (forall rq, In rq acc ->
                           at_depth rq = (depth + 1)%Z /\
                           hasBeenTraversed api (lookup_key rq) = false) ->
               fold_left
                 (fun promises group =>
                    ps <- promises ;;
                    qs <- loadRelationshipGroup api e group depth ;;
                    Ok (ps ++ qs)%list) groups (Ok acc) = Ok out ->
               forall rq, In rq out ->
                          at_depth rq = (depth + 1)%Z /\
                          hasBeenTraversed api (lookup_key rq) = false).
    { induction groups as [|g groups IH]; intros acc out Hacc Hout.
      - injection Hout as <-. exact Hacc.
      - cbn [fold_left bind] in Hout.
        destruct (loadRelationshipGroup api e g depth) as [qs|er] eqn:Hg.
        + cbn [bind] in Hout. apply (IH (acc ++ qs)%list out); [|exact Hout].
          intros rq Hin. apply in_app_or in Hin. destruct Hin as [Hin|Hin].
          * now apply Hacc.
          * exact (loadRelationshipGroup_untraversed api e g depth qs Hg rq Hin).
        + cbn [bind] in Hout. exfalso. clear - Hout.
          induction groups as [|g' groups IH]; [discriminate | exact (IH Hout)]. }
    apply (G (relationshipGroups e) [] rs); [intros rq [] | exact H]. }
  split; [exact Hall|].
  intros Hv.
  assert (Hnil : rs = []).
  { destruct rs as [|rq rs']; [reflexivity|].
    destruct (Hall rq (or_introl eq_refl)) as [_ Hf].
    rewrite Hv in Hf. discriminate. }
  split; [exact Hnil|]. unfold loadRelationships. rewrite H, Hnil. reflexivity.
Qed.

Lemma loadRelationships_respects_visited_witness :
  loadRelationships_requests library_api (built tagged_article) 4
  = Ok [ {| lookup_key :=
              Lookup.make (VStr "taxonomy_term") (VStr "tags") (VStr "aaaa");
            at_depth := 5 |};
         {| lookup_key :=
              Lookup.make (VStr "taxonomy_term") (VStr "tags") (VStr "bbbb");
            at_depth := 5 |} ] /\
  hasBeenTraversed library_api
    (Lookup.make (VStr "taxonomy_term") (VStr "tags") (VStr "bbbb")) = false.
Proof.
  split; [reflexivity|].
  exact (proj2 (proj1 (loadRelationships_respects_visited library_api
                         (built tagged_article) 4 _ eq_refl)
                  {| lookup_key :=
                       Lookup.make (VStr "taxonomy_term") (VStr "tags")
                         (VStr "bbbb");
                     at_depth := 5 |}
                  (or_intror (or_introl eq_refl)))).
Defined.

(** ** Cleaning and references *)

Lemma cleanField_other_members (kvs : list (string * jsval)) (k : string) :
  String.eqb k "links" = false -> String.eqb k "data" = false ->
  prop (cleanField (VObj kvs)) k = prop (VObj kvs) k.
Proof.
  intros H1 H2. rewrite cleanField_VObj.
  destruct (truthy (prop (VObj kvs) "links")
            && truthy (prop (prop (VObj kvs) "links") "self"));
    cbn [prop]; rewrite ?lookup_remove_key, ?lookup_on_data, ?H1, ?H2;
    reflexivity.
Qed.

(** X21.  Cleaning a field never changes whether it is a relationship
    reference, nor the lookup key read from it: [cleanField] leaves [type]
    and [id] alone. *)
Theorem cleanField_keeps_reference (v : jsval) :
  isRelationship (cleanField v) = isRelationship v /\
  dataToLookup (cleanField v) = dataToLookup v.
Proof.
  destruct v as [| | b | n | s | l | kvs]; try (split; reflexivity).
  - split; [reflexivity|].
    unfold dataToLookup. cbn [cleanField get bind prop]. eqb_literals.
    rewrite !arr_get_named by reflexivity. reflexivity.
  - pose proof (cleanField_other_members kvs "type" eq_refl eq_refl) as Ht.
    pose proof (cleanField_other_members kvs "id" eq_refl eq_refl) as Hi.
    assert (Hobj : exists kvs', cleanField (VObj kvs) = VObj kvs').
    { rewrite cleanField_VObj.
      destruct (truthy (prop (VObj kvs) "links")
                && truthy (prop (prop (VObj kvs) "links") "self")); eauto. }
    destruct Hobj as [kvs' Hobj]. rewrite Hobj in *.
    split.
    + unfold isRelationship. rewrite Ht, Hi. reflexivity.
    + unfold dataToLookup, get. cbn [bind]. rewrite Ht, Hi. reflexivity.
Qed.

(** ** Extraction from a concatenation *)

Lemma set_key_comm {A} (k k' : string) (v v' : A) (m : list (string * A)) :
  String.eqb k k' = false -> In k (map fst m) ->
  set_key k' v' (set_key k v m) = set_key k v (set_key k' v' m).
Proof.
  intros Hkk. assert (Hkk' : String.eqb k' k = false)
    by (now rewrite String.eqb_sym).
  induction m as [|[k0 v0] m IH]; intros Hin; [contradiction|].
  cbn [set_key].
  destruct (String.eqb k k0) eqn:E1; destruct (String.eqb k' k0) eqn:E2;
    cbn [set_key].
  - apply String.eqb_eq in E1, E2. subst. rewrite String.eqb_refl in Hkk.
    discriminate.
  - apply String.eqb_eq in E1. subst k0. now rewrite Hkk', String.eqb_refl.
  - apply String.eqb_eq in E2. subst k0. now rewrite String.eqb_refl, Hkk.
  - rewrite E1, E2. f_equal. apply IH. simpl in Hin.
    destruct Hin as [->|Hin]; [|exact Hin].
    rewrite String.eqb_refl in E1. discriminate.
Qed.

Lemma assign_cons {A} (set found : list (string * A)) (kv : string * A) :
  assign set (kv :: found) =
  assign (if String.eqb (fst kv) "__proto__" then set
          else set_key (fst kv) (snd kv) set) found.
Proof. reflexivity. Qed.

Lemma assign_NoDup {A} (found set : list (string * A)) :
  NoDup (map fst set) -> NoDup (map fst (assign set found)).
Proof.
  revert set. induction found as [|kv found IH]; intros set H; [exact H|].
  rewrite assign_cons. apply IH.
  destruct (String.eqb (fst kv) "__proto__"); [exact H | now apply set_key_NoDup].
Qed.

Lemma assign_after_set_key {A} (k : string) (v : A) (found : list (string * A)) :
  ~ In k (map fst found) ->
  forall set, In k (map fst set) ->
              assign (set_key k v set) found = set_key k v (assign set found).
Proof.
  induction found as [|[k' v'] found IH]; intros Hout set Hin; [reflexivity|].
  rewrite !assign_cons. cbn [fst snd].
  assert (Hkk : String.eqb k k' = false).
  { destruct (String.eqb k k') eqn:E; [|reflexivity].
    apply String.eqb_eq in E. subst k'. exfalso. apply Hout. now left. }
  assert (Hout' : ~ In k (map fst found))
    by (intros H; apply Hout; now right).
  destruct (String.eqb k' "__proto__").
  - now apply IH.
  - rewrite (set_key_comm k k' v v' set Hkk Hin).
    apply IH; [exact Hout'|]. now apply set_key_keeps_key.
Qed.

Lemma assign_set_key {A} (k : string) (v : A) (found : list (string * A)) :
  NoDup (map fst found) ->
  String.eqb k "__proto__" = false ->
  forall set, assign set (set_key k v found) = set_key k v (assign set found).
Proof.
  intros Hnd Hk. induction found as [|[k0 v0] found IH]; intros set.
  - cbn [set_key]. rewrite assign_cons. cbn [fst snd]. now rewrite Hk.
  - inversion Hnd as [|x xs Hout Hnd']; subst. cbn [set_key].
    destruct (String.eqb k k0) eqn:E.
    + apply String.eqb_eq in E. subst k0. rewrite !assign_cons. cbn [fst snd].
      rewrite Hk.
      rewrite <- (assign_after_set_key k v found Hout (set_key k v0 set)
                    (set_key_has_key k v0 set)).
      now rewrite set_key_twice.
    + rewrite !assign_cons. cbn [fst snd]. now apply IH.
Qed.

Lemma assign_assoc {A} (a c : list (string * A)) :
  forall b, NoDup (map fst b) ->
            assign (assign a b) c = assign a (assign b c).
Proof.
  induction c as [|[k v] c IH]; intros b Hnd; [reflexivity|].
  rewrite !assign_cons. cbn [fst snd].
  destruct (String.eqb k "__proto__") eqn:Hk.
  - now apply IH.
  - rewrite <- (IH (set_key k v b)) by now apply set_key_NoDup.
    now rewrite (assign_set_key k v b Hnd Hk).
Qed.

Lemma fold_gather_assign (api : Api) {A} (item : A -> jsval) (l : list A)
    (a : list (string * Lookup.t)) :
  forall b,
    NoDup (map fst b) ->
    fold_left (gather api item) l (Ok (assign a b)) =
    (r <- fold_left (gather api item) l (Ok b) ;; Ok (assign a r)).
Proof.
  induction l as [|x l IH]; intros b Hnd; [reflexivity|].
  cbn [fold_left]. unfold gather at 2 4. cbn [bind].
  destruct (parseRelationshipLookups api (item x)) as [fx|er]; cbn [bind].
  - rewrite (assign_assoc a fx b Hnd). apply IH. now apply assign_NoDup.
  - rewrite !fold_gather_Err. reflexivity.
Qed.

(** X22.  Extraction distributes over concatenation: the lookups of a list
    of items are the lookups of its first part with those of its second
    part assigned over them, and an exception in either part is the
    exception of the whole. *)
Theorem parseRelationshipLookups_app (api : Api) (l1 l2 : list jsval) :
  parseRelationshipLookups api (VArr (l1 ++ l2)) =
    (f1 <- parseRelationshipLookups api (VArr l1) ;;
     f2 <- parseRelationshipLookups api (VArr l2) ;;
     Ok (assign f1 f2)).
Proof.
  rewrite !parse_unfold. cbn [isRelationship bind].
  rewrite fold_left_app.
  destruct (fold_left (gather api (fun x => x)) l1 (Ok [])) as [f1|er]; cbn [bind].
  - change (Ok f1) with (@Ok (list (string * Lookup.t)) (assign f1 [])) at 1.
    rewrite (fold_gather_assign api (fun x => x) l2 f1 []); [|constructor].
    reflexivity.
  - apply fold_gather_Err.
Qed.

(** ** [value] and [allValues] together *)




(** ** What the methods leave alone *)

(** X24.  The readers change nothing but the two memo fields: after [id],
    the [fieldMap] getter, [field], [value] or [allValues] the instance has
    the same resource, data, attributes and relationship groups; [id]
    leaves the field map alone and the others leave the cached id alone. *)
Theorem readers_keep_the_resource
    (api : Api) (depth : nat) (name : string) (e : Entity) :
  let same e' :=
    res e' = res e /\ data e' = data e /\ attrs e' = attrs e /\
    relationshipGroups e' = relationshipGroups e in
  (same (snd (id e)) /\ _fieldMap (snd (id e)) = _fieldMap e) /\
  (same (snd (fieldMap e)) /\ _id (snd (fieldMap e)) = _id e) /\
  (same (snd (field name e)) /\ _id (snd (field name e)) = _id e) /\
  (same (snd (value api depth name e)) /\ _id (snd (value api depth name e)) = _id e) /\
  (same (snd (allValues api depth name e))
   /\ _id (snd (allValues api depth name e)) = _id e).
Proof.
  cbv zeta.
  assert (Hmap : (res (snd (fieldMap e)) = res e /\ data (snd (fieldMap e)) = data e
                  /\ attrs (snd (fieldMap e)) = attrs e
                  /\ relationshipGroups (snd (fieldMap e)) = relationshipGroups e)
                 /\ _id (snd (fieldMap e)) = _id e).
  { unfold fieldMap, bindM, this, lift, ret.
    destruct (negb (isCollection e) && Nat.eqb (List.length (_fieldMap e)) 0);
      [destruct (fieldPairs e)|]; cbn; auto. }
  assert (Hfield : snd (field name e) = snd (fieldMap e)) by apply field_state.
  assert (Hvalue : snd (value api depth name e) = e
                   \/ snd (value api depth name e) = snd (field name e)).
  { destruct depth as [|d]; [now left|]. right.
    cbn [value]. unfold bindM, lift.
    destruct (field name e) as [[f|er] e1]; [|reflexivity].
    destruct (valueProcessor f); reflexivity. }
  assert (Hall : snd (allValues api depth name e) = e
                 \/ snd (allValues api depth name e) = snd (field name e)).
  { destruct depth as [|d]; [now left|]. right.
    unfold allValues, bindM, lift, ret.
    destruct (field name e) as [[f|er] e1]; [|reflexivity].
    destruct (if isArray f then Ok f
              else d0 <- get f "data" ;; Ok (if isArray d0 then d0 else f))
      as [f'|er]; [|reflexivity].
    destruct f'; try reflexivity. destruct (map_result _ items); reflexivity. }
  split; [|split; [exact Hmap|split; [now rewrite Hfield|split]]].
  - unfold id, bindM, this, lift, ret.
    destruct (negb (truthy (_id e))); [|cbn; auto 6].
    destruct (keys (attrs e)); [|cbn; auto 6].
    destruct (find re_is_id a); cbn; auto 6.
  - destruct Hvalue as [->| ->]; [auto 6 | now rewrite Hfield].
  - destruct Hall as [->| ->]; [auto 6 | now rewrite Hfield].
Qed.
